(** * AgriConnect AI: the client data contract and screens, verified

    The repository ships two clients of the MCP decision engine: a Flutter
    mobile app (farmer and transporter screens, [api_service.dart]) and a
    React admin dashboard.  This development embeds the parts of those
    clients that carry data (the JSON models, the request form, the job
    lists) and states the properties of the specification about them.
    The engine itself is not in the repository; its matching and
    reservation protocol are modelled from the specification. *)

From Stdlib Require Import ZArith String Ascii List Bool Lia.
From Stdlib Require Import Floats.SpecFloat.
From stdpp Require Import base option list strings gmap.

Set Warnings "-register-all".
Local Open Scope string_scope.
Local Open Scope Z_scope.
Import ListNotations.

(** ** Dart values *)

Module Dart.

(** A Dart [double] is an IEEE 754 binary64 datum. *)
Definition double : Type := spec_float.
Definition prec : Z := 53.
Definition emax : Z := 1024.

(** [int.toDouble()]: the nearest binary64 value, ties to even. *)
Definition int_toDouble (n : Z) : double :=
  binary_normalize prec emax n 0 false.

Definition isFinite (d : double) : bool :=
  match d with
  | S754_zero _ | S754_finite _ _ _ => true
  | S754_infinity _ | S754_nan => false
  end.

Definition zero : double := S754_zero false.

(** [a < b] and [a >= b] on doubles. *)
Definition lt (a b : double) : bool := SFltb a b.
Definition ge (a b : double) : bool := SFleb b a.

(** Values of static type [dynamic], as [jsonDecode] builds them and as
    the [toJson] methods return them.  A [Map<String, dynamic>] keeps its
    entries in insertion order. *)
Inductive dynamic : Type :=
| DNull
| DBool (b : bool)
| DInt (n : Z)
| DDouble (d : double)
| DString (s : string)
| DList (l : list dynamic)
| DMap (m : list (string * dynamic)).

Definition Map : Type := list (string * dynamic).

(** [m[key]]: the value stored under [key], [null] when there is none. *)
Fixpoint index (m : Map) (key : string) : dynamic :=
  match m with
  | [] => DNull
  | (k, v) :: rest => if String.eqb k key then v else index rest key
  end.

Definition containsKey (m : Map) (key : string) : bool :=
  existsb (String.eqb key) (map fst m).

Definition keys (m : Map) : list string := map fst m.

(** What a Dart expression can throw in the modelled code.  The
    interpolated messages of [Exception('...')] are kept as data. *)
Inductive exn : Type :=
| TypeError
| NoSuchMethodError
| FormatException
| JsonUnsupportedObjectError
| ClientException
| FailedToMatchTransport (statusCode : Z)
| NetworkError (cause : exn)
| FailedToSubmitRequest.

Inductive result (A : Type) : Type :=
| Ok (a : A)
| Throw (e : exn).
Arguments Ok {A} a.
Arguments Throw {A} e.

Definition bind {A B} (r : result A) (k : A -> result B) : result B :=
  match r with
  | Ok a => k a
  | Throw e => Throw e
  end.

(** Implicit downcasts from [dynamic]. *)
Definition as_String (v : dynamic) : result string :=
  match v with DString s => Ok s | _ => Throw TypeError end.

Definition as_String_opt (v : dynamic) : result (option string) :=
  match v with
  | DNull => Ok None
  | DString s => Ok (Some s)
  | _ => Throw TypeError
  end.

Definition as_int_opt (v : dynamic) : result (option Z) :=
  match v with
  | DNull => Ok None
  | DInt n => Ok (Some n)
  | _ => Throw TypeError
  end.

Definition as_bool (v : dynamic) : result bool :=
  match v with DBool b => Ok b | _ => Throw TypeError end.

Definition as_Map (v : dynamic) : result Map :=
  match v with DMap m => Ok m | _ => Throw TypeError end.

Definition as_Map_opt (v : dynamic) : result (option Map) :=
  match v with
  | DNull => Ok None
  | DMap m => Ok (Some m)
  | _ => Throw TypeError
  end.

(** The dynamic call [v.toDouble()]: defined on [num] only. *)
Definition toDouble (v : dynamic) : result double :=
  match v with
  | DInt n => Ok (int_toDouble n)
  | DDouble d => Ok d
  | _ => Throw NoSuchMethodError
  end.

(** The null-aware call [v?.toDouble()]. *)
Definition toDouble_opt (v : dynamic) : result (option double) :=
  match v with
  | DNull => Ok None
  | _ => bind (toDouble v) (fun d => Ok (Some d))
  end.

Definition of_opt {A} (f : A -> dynamic) (o : option A) : dynamic :=
  match o with
  | Some a => f a
  | None => DNull
  end.

(** *** [double.tryParse]

    The library grammar: optional surrounding whitespace, an optional sign,
    then [Infinity], [NaN], or a mantissa (digits with an optional point and
    fraction, or a point and digits) with an optional exponent.  A string
    is a sequence of code units below 256. *)

Definition isWhitespace (c : ascii) : bool :=
  let n := Z.of_N (N_of_ascii c) in
  ((9 <=? n) && (n <=? 13)) || (n =? 32) || (n =? 133) || (n =? 160).

Definition isDigit (c : ascii) : bool :=
  let n := Z.of_N (N_of_ascii c) in (48 <=? n) && (n <=? 57).

Definition digitValue (c : ascii) : Z := Z.of_N (N_of_ascii c) - 48.

Fixpoint takeDigits (l : list ascii) : list ascii * list ascii :=
  match l with
  | c :: rest =>
      if isDigit c
      then let '(ds, tl) := takeDigits rest in (c :: ds, tl)
      else ([], l)
  | [] => ([], [])
  end.

Definition digitsValue (ds : list ascii) : Z :=
  fold_left (fun acc c => 10 * acc + digitValue c) ds 0.

Fixpoint dropWhitespace (l : list ascii) : list ascii :=
  match l with
  | c :: rest => if isWhitespace c then dropWhitespace rest else l
  | [] => []
  end.

Definition trim (l : list ascii) : list ascii :=
  rev (dropWhitespace (rev (dropWhitespace l))).

Definition takeSign (l : list ascii) : bool * list ascii :=
  match l with
  | "-"%char :: rest => (true, rest)
  | "+"%char :: rest => (false, rest)
  | _ => (false, l)
  end.

(** The exponent part, or nothing, up to the end of the input. *)
Definition parseExponent (l : list ascii) : option Z :=
  match l with
  | [] => Some 0
  | c :: rest =>
      if Ascii.eqb c "e" || Ascii.eqb c "E" then
        let '(neg, rest) := takeSign rest in
        match takeDigits rest with
        | ((_ :: _) as ds, []) => Some (cond_Zopp neg (digitsValue ds))
        | _ => None
        end
      else None
  end.

(** The binary64 value nearest to [(-1)^neg * m * 10^e]. *)
Definition decimalToDouble (neg : bool) (m e : Z) : double :=
  match m with
  | Zpos p =>
      if 0 <=? e
      then binary_normalize prec emax (cond_Zopp neg (m * 10 ^ e)) 0 neg
      else SFdiv prec emax (S754_finite neg p 0)
             (S754_finite false (Z.to_pos (10 ^ (- e))) 0)
  | _ => S754_zero neg
  end.

Definition parseMantissa (neg : bool) (l : list ascii) : option double :=
  let '(ip, rest) := takeDigits l in
  match ip, rest with
  | _ :: _, "."%char :: rest' =>
      let '(fp, tl) := takeDigits rest' in
      match parseExponent tl with
      | Some ex =>
          Some (decimalToDouble neg (digitsValue (ip ++ fp)%list)
                  (ex - Z.of_nat (length fp)))
      | None => None
      end
  | _ :: _, _ =>
      match parseExponent rest with
      | Some ex => Some (decimalToDouble neg (digitsValue ip) ex)
      | None => None
      end
  | [], "."%char :: rest' =>
      match takeDigits rest' with
      | ((_ :: _) as fp, tl) =>
          match parseExponent tl with
          | Some ex =>
              Some (decimalToDouble neg (digitsValue fp)
                      (ex - Z.of_nat (length fp)))
          | None => None
          end
      | _ => None
      end
  | [], _ => None
  end.

Definition tryParse (source : string) : option double :=
  let '(neg, body) := takeSign (trim (list_ascii_of_string source)) in
  if String.eqb (string_of_list_ascii body) "Infinity" then Some (S754_infinity neg)
  else if String.eqb (string_of_list_ascii body) "NaN" then Some S754_nan
  else parseMantissa neg body.

(** [double.parse]: [tryParse], throwing where it returns [null]. *)
Definition parse (source : string) : result double :=
  match tryParse source with
  | Some d => Ok d
  | None => Throw FormatException
  end.

(** *** [jsonEncode] and [jsonDecode]

    The text on the wire is represented by the JSON value it denotes.
    [jsonEncode] refuses numbers that are not finite; everything else the
    modelled code builds is encodable. *)
Fixpoint encodable (v : dynamic) : bool :=
  match v with
  | DDouble d => isFinite d
  | DList l => forallb encodable l
  | DMap m => forallb (fun kv => encodable (snd kv)) m
  | _ => true
  end.

Definition jsonEncode (v : dynamic) : result dynamic :=
  if encodable v then Ok v else Throw JsonUnsupportedObjectError.

(** *** [==] with an [int] on the right

    [int == int] is exact; [double == int] converts the [int] first;
    no other value equals an [int]. *)
Definition eq_int (v : dynamic) (n : Z) : bool :=
  match v with
  | DInt a => a =? n
  | DDouble d => SFeqb d (int_toDouble n)
  | _ => false
  end.

End Dart.

Import Dart.

Notation "'let!' x ':=' e 'in' k" := (bind e (fun x => k))
  (at level 10, x name, e at level 100, k at level 200, only parsing).

(** ** The models of [api_service.dart] *)

Module FarmerRequest.

Record t : Type := Build {
  cropType : string;
  quantityKg : double;
  location : string;
  destinationMarket : string;
  preferredDeliveryTime : option string
}.

Definition fromJson (json : Map) : result t :=
  let! cropType := as_String (index json "crop_type") in
  let! quantityKg := toDouble (index json "quantity_kg") in
  let! location := as_String (index json "location") in
  let! destinationMarket := as_String (index json "destination_market") in
  let! preferredDeliveryTime := as_String_opt (index json "preferred_delivery_time") in
  Ok (Build cropType quantityKg location destinationMarket preferredDeliveryTime).

Definition toJson (r : t) : Map :=
  [ ("crop_type", DString (cropType r));
    ("quantity_kg", DDouble (quantityKg r));
    ("location", DString (location r));
    ("destination_market", DString (destinationMarket r));
    ("preferred_delivery_time", of_opt DString (preferredDeliveryTime r)) ].

End FarmerRequest.

Module TransporterProfile.

Record t : Type := Build {
  vehicleType : string;
  capacityKg : double;
  currentLocation : string;
  availability : bool;
  contactInfo : string
}.

Definition fromJson (json : Map) : result t :=
  let! vehicleType := as_String (index json "vehicle_type") in
  let! capacityKg := toDouble (index json "capacity_kg") in
  let! currentLocation := as_String (index json "current_location") in
  let! availability := as_bool (index json "availability") in
  let! contactInfo := as_String (index json "contact_info") in
  Ok (Build vehicleType capacityKg currentLocation availability contactInfo).

Definition toJson (p : t) : Map :=
  [ ("vehicle_type", DString (vehicleType p));
    ("capacity_kg", DDouble (capacityKg p));
    ("current_location", DString (currentLocation p));
    ("availability", DBool (availability p));
    ("contact_info", DString (contactInfo p)) ].

End TransporterProfile.

Module TransportJob.

Record t : Type := Build {
  id : option Z;
  farmerRequest : FarmerRequest.t;
  transporter : option TransporterProfile.t;
  status : string;
  estimatedArrival : option string;
  routeOptimization : option Map;
  spoilageRisk : option double;
  createdAt : option string
}.

(** [v != null ? TransporterProfile.fromJson(v) : null] *)
Definition readTransporter (v : dynamic) : result (option TransporterProfile.t) :=
  match v with
  | DNull => Ok None
  | _ => let! tp := as_Map v in
         let! p := TransporterProfile.fromJson tp in
         Ok (Some p)
  end.

Definition fromJson (json : Map) : result t :=
  let! id := as_int_opt (index json "id") in
  let! fr := as_Map (index json "farmer_request") in
  let! farmerRequest := FarmerRequest.fromJson fr in
  let! transporter := readTransporter (index json "transporter") in
  let! status := as_String (index json "status") in
  let! estimatedArrival := as_String_opt (index json "estimated_arrival") in
  let! routeOptimization := as_Map_opt (index json "route_optimization") in
  let! spoilageRisk := toDouble_opt (index json "spoilage_risk") in
  let! createdAt := as_String_opt (index json "created_at") in
  Ok (Build id farmerRequest transporter status estimatedArrival
            routeOptimization spoilageRisk createdAt).

Definition toJson (j : t) : Map :=
  [ ("id", of_opt DInt (id j));
    ("farmer_request", DMap (FarmerRequest.toJson (farmerRequest j)));
    ("transporter",
      of_opt (fun p => DMap (TransporterProfile.toJson p)) (transporter j));
    ("status", DString (status j));
    ("estimated_arrival", of_opt DString (estimatedArrival j));
    ("route_optimization", of_opt DMap (routeOptimization j));
    ("spoilage_risk", of_opt DDouble (spoilageRisk j));
    ("created_at", of_opt DString (createdAt j)) ].

End TransportJob.

(** [ApiService]: the HTTP boundary.  The backend answers a POST either
    not at all (the client call throws) or with a status code and a body;
    the body is given as [jsonDecode] reads it, [None] when it is not JSON
    text. *)
Module ApiService.

Definition baseUrl : string := "http://localhost:8000/api/v1".

Inductive reply : Type :=
| NoConnection
| Response (statusCode : Z) (body : option dynamic).

(** A backend: what it answers to a POST of [body] to [url]. *)
Definition backend : Type := string -> dynamic -> reply.

Definition jsonDecode (body : option dynamic) : result dynamic :=
  match body with
  | Some v => Ok v
  | None => Throw FormatException
  end.

(** A POST the client has issued, answered or not. *)
Record posted : Type := Post { url : string; sent : dynamic }.

Definition post (net : backend) (u : string) (b : dynamic) : result (Z * option dynamic) :=
  match net u b with
  | NoConnection => Throw ClientException
  | Response code body => Ok (code, body)
  end.

(** [try { ... } catch (e) { throw Exception('Network error: $e'); }] *)
Definition wrapNetworkError {A} (r : result A) : result A :=
  match r with
  | Ok a => Ok a
  | Throw e => Throw (NetworkError e)
  end.

(** [matchTransport]: the requests sent, and the decoded answer or the
    exception thrown. *)
Definition matchTransport (net : backend) (request : Map) : list posted * result Map :=
  let u := baseUrl ++ "/mcp/match-transport" in
  match jsonEncode (DMap request) with
  | Throw e => ([], Throw (NetworkError e))
  | Ok body =>
      ([Post u body],
       wrapNetworkError
         (let! response := post net u body in
          if fst response =? 200
          then let! decoded := jsonDecode (snd response) in as_Map decoded
          else Throw (FailedToMatchTransport (fst response))))
  end.

(** The exceptions of [optimizeRoute] and [predictSpoilage]: what a
    library call inside their [try] throws, their own status exceptions,
    and the [Exception('Network error: $e')] of their [catch]. *)
Inductive thrown : Type :=
| Raised (e : exn)
| FailedToOptimizeRoute (statusCode : Z)
| FailedToPredictSpoilage (statusCode : Z)
| NetworkErrorOf (cause : thrown).

Inductive outcome : Type :=
| Returned (m : Map)
| Thrown (t : thrown).

(** [return jsonDecode(response.body)] under the [try]. *)
Definition decoded (body : option dynamic) : outcome :=
  match (let! v := jsonDecode body in as_Map v) with
  | Ok m => Returned m
  | Throw e => Thrown (NetworkErrorOf (Raised e))
  end.

Definition optimizeRoute (net : backend) (start end_ : string)
  : list posted * outcome :=
  let u := baseUrl ++ "/mcp/optimize-route" in
  match jsonEncode (DMap [ ("start_location", DString start);
                           ("end_location", DString end_) ]) with
  | Throw e => ([], Thrown (NetworkErrorOf (Raised e)))
  | Ok body =>
      ([Post u body],
       match post net u body with
       | Throw e => Thrown (NetworkErrorOf (Raised e))
       | Ok response =>
           if fst response =? 200
           then decoded (snd response)
           else Thrown (NetworkErrorOf (FailedToOptimizeRoute (fst response)))
       end)
  end.

Definition predictSpoilage (net : backend) (cropType : string)
  (estimatedDuration : Z) (temperature : double) : list posted * outcome :=
  let u := baseUrl ++ "/mcp/predict-spoilage" in
  match jsonEncode (DMap [ ("crop_type", DString cropType);
                           ("estimated_duration", DInt estimatedDuration);
                           ("temperature", DDouble temperature) ]) with
  | Throw e => ([], Thrown (NetworkErrorOf (Raised e)))
  | Ok body =>
      ([Post u body],
       match post net u body with
       | Throw e => Thrown (NetworkErrorOf (Raised e))
       | Ok response =>
           if fst response =? 200
           then decoded (snd response)
           else Thrown (NetworkErrorOf (FailedToPredictSpoilage (fst response)))
       end)
  end.

End ApiService.

(** ** The farmer screen ([farmer_screen.dart]) *)

Module FarmerScreen.

Inductive snack : Type :=
| SubmittedSuccessfully
| ErrorSnack (e : exn).

Inductive effect : Type :=
| Sent (p : ApiService.posted)
| SnackBar (s : snack).

(** The state of [_FarmerScreenState]; a controller is its text.  The
    dropdown field shows [_selectedCrop] and validates that same value. *)
Record State : Type := Build {
  _selectedCrop : option string;
  _quantityController : string;
  _locationController : string;
  _marketController : string;
  _isLoading : bool;
  _currentJob : option TransportJob.t
}.

Definition _cropTypes : list string :=
  ["tomatoes"; "maize"; "beans"; "potatoes"; "cabbage"; "other"].

Definition initState : State := Build None "" "" "" false None.

(** The validators: [None] is Dart's [null], no complaint. *)
Definition cropValidator (value : option string) : option string :=
  match value with
  | None => Some "Please select a crop type"
  | Some v => if String.eqb v "" then Some "Please select a crop type" else None
  end.

Definition quantityValidator (value : string) : option string :=
  if String.eqb value "" then Some "Please enter quantity"
  else match tryParse value with
       | None => Some "Please enter a valid number"
       | Some _ => None
       end.

Definition locationValidator (value : string) : option string :=
  if String.eqb value "" then Some "Please enter pickup location" else None.

Definition marketValidator (value : string) : option string :=
  if String.eqb value "" then Some "Please enter destination market" else None.

Definition noComplaint (o : option string) : bool :=
  match o with None => true | Some _ => false end.

(** [_formKey.currentState!.validate()] *)
Definition validate (st : State) : bool :=
  noComplaint (cropValidator (_selectedCrop st))
  && noComplaint (quantityValidator (_quantityController st))
  && noComplaint (locationValidator (_locationController st))
  && noComplaint (marketValidator (_marketController st)).

(** The map literal built in [_submitRequest]. *)
Definition requestOf (st : State) (quantity : double) : Map :=
  [ ("crop_type", of_opt DString (_selectedCrop st));
    ("quantity_kg", DDouble quantity);
    ("location", DString (_locationController st));
    ("destination_market", DString (_marketController st)) ].

(** The body of the [try] block: what was sent, and the job parsed from
    the answer or the exception that reaches the [catch]. *)
Definition tryMatch (net : ApiService.backend) (st : State)
  : list ApiService.posted * result TransportJob.t :=
  match parse (_quantityController st) with
  | Throw e => ([], Throw e)
  | Ok quantity =>
      let '(sent, answer) := ApiService.matchTransport net (requestOf st quantity) in
      (sent,
       let! response := answer in
       let! success := as_bool (index response "success") in
       if success
       then let! job := as_Map (index response "transport_job") in
            TransportJob.fromJson job
       else Throw FailedToSubmitRequest)
  end.

Definition _submitRequest (net : ApiService.backend) (st : State)
  : State * list effect :=
  if validate st then
    match tryMatch net st with
    | (sent, Ok job) =>
        (Build (_selectedCrop st) (_quantityController st)
               (_locationController st) (_marketController st) false (Some job),
         (map Sent sent ++ [SnackBar SubmittedSuccessfully])%list)
    | (sent, Throw e) =>
        (Build (_selectedCrop st) (_quantityController st)
               (_locationController st) (_marketController st) false
               (_currentJob st),
         (map Sent sent ++ [SnackBar (ErrorSnack e)])%list)
    end
  else (st, []).

Definition _resetForm (st : State) : State :=
  Build None "" "" "" (_isLoading st) None.

(** What the user can do.  The dropdown offers the entries of
    [_cropTypes] only; "New Request" is shown with a current job only. *)
Inductive event : Type :=
| CropChanged (item : nat)
| QuantityEdited (text : string)
| LocationEdited (text : string)
| MarketEdited (text : string)
| FindTransportPressed (net : ApiService.backend)
| NewRequestPressed.

Definition step (st : State) (ev : event) : State * list effect :=
  match ev with
  | CropChanged item =>
      match nth_error _cropTypes item with
      | Some crop =>
          (Build (Some crop) (_quantityController st) (_locationController st)
                 (_marketController st) (_isLoading st) (_currentJob st), [])
      | None => (st, [])
      end
  | QuantityEdited text =>
      (Build (_selectedCrop st) text (_locationController st)
             (_marketController st) (_isLoading st) (_currentJob st), [])
  | LocationEdited text =>
      (Build (_selectedCrop st) (_quantityController st) text
             (_marketController st) (_isLoading st) (_currentJob st), [])
  | MarketEdited text =>
      (Build (_selectedCrop st) (_quantityController st)
             (_locationController st) text (_isLoading st) (_currentJob st), [])
  | FindTransportPressed net => _submitRequest net st
  | NewRequestPressed =>
      match _currentJob st with
      | Some _ => (_resetForm st, [])
      | None => (st, [])
      end
  end.

Fixpoint run (st : State) (evs : list event) : State * list effect :=
  match evs with
  | [] => (st, [])
  | ev :: rest =>
      let '(st1, out1) := step st ev in
      let '(st2, out2) := run st1 rest in
      (st2, (out1 ++ out2)%list)
  end.

(** The request bodies the screen has sent to the backend. *)
Definition submitted (out : list effect) : list ApiService.posted :=
  flat_map (fun e => match e with Sent p => [p] | SnackBar _ => [] end) out.



(** How many times "Find Transport" is pressed in a run. *)
Definition presses (evs : list event) : nat :=
  length (List.filter
            (fun ev => match ev with FindTransportPressed _ => true | _ => false end)
            evs).

End FarmerScreen.

(** ** The transporter screen *)

Module TransporterScreen.

Inductive snack : Type :=
| AcceptedJob (jobId : Z)
| NowAvailable
| NowUnavailable.

Record State : Type := Build {
  _availableJobs : list Map;
  _isLoading : bool;
  _isAvailable : bool
}.

Definition initState : State := Build [] false true.

Definition mockJobs : list Map :=
  [ [ ("id", DInt 1);
      ("crop_type", DString "tomatoes");
      ("quantity_kg", DDouble (decimalToDouble false 5000 (-1)));
      ("pickup_location", DString "Mashonaland East");
      ("destination", DString "Mbare Musika");
      ("distance_km", DDouble (decimalToDouble false 450 (-1)));
      ("estimated_fare", DDouble (decimalToDouble false 1200 (-1))) ];
    [ ("id", DInt 2);
      ("crop_type", DString "maize");
      ("quantity_kg", DDouble (decimalToDouble false 10000 (-1)));
      ("pickup_location", DString "Mashonaland Central");
      ("destination", DString "Sakubva Market");
      ("distance_km", DDouble (decimalToDouble false 850 (-1)));
      ("estimated_fare", DDouble (decimalToDouble false 2000 (-1))) ] ].

Definition _loadAvailableJobs (st : State) : State :=
  Build mockJobs false (_isAvailable st).

Definition _toggleAvailability (st : State) : State * list snack :=
  let available := negb (_isAvailable st) in
  (Build (_availableJobs st) (_isLoading st) available,
   [if available then NowAvailable else NowUnavailable]).

(** [List.removeWhere]: keeps, in order, the elements failing [test]. *)
Definition removeWhere {A} (test : A -> bool) (l : list A) : list A :=
  List.filter (fun x => negb (test x)) l.

(** The closure [(job) => job['id'] == jobId]. *)
Definition hasId (jobId : Z) (job : Map) : bool :=
  eq_int (index job "id") jobId.

Definition _acceptJob (jobId : Z) (st : State) : State * list snack :=
  (Build (removeWhere (hasId jobId) (_availableJobs st))
         (_isLoading st) (_isAvailable st),
   [AcceptedJob jobId]).

End TransporterScreen.

(** ** The admin job table ([jobs.jsx]) *)

Module AdminJobs.

(** A job object of the mock fetch.  The integer literals are kept as
    integers; [spoilageRisk] is the double its literal denotes. *)
Record Job : Type := Build {
  id : Z;
  farmer : string;
  crop : string;
  quantity : Z;
  pickup : string;
  destination : string;
  transporter : option string;
  status : string;
  date : string;
  spoilageRisk : double;
  distance : Z
}.

Definition jobs : list Job :=
  [ Build 1 "John Moyo" "Tomatoes" 500 "Mashonaland East" "Mbare Musika"
      (Some "Tinashe Transport") "completed" "2024-06-15"
      (decimalToDouble false 15 (-2)) 45;
    Build 2 "Sarah Ndlovu" "Maize" 1000 "Mashonaland Central" "Sakubva Market"
      (Some "Blessing Deliveries") "in-progress" "2024-06-15"
      (decimalToDouble false 8 (-2)) 85;
    Build 3 "David Chiweshe" "Beans" 300 "Masvingo" "Mbare Musika"
      None "pending" "2024-06-14"
      (decimalToDouble false 12 (-2)) 290;
    Build 4 "Grace Makoni" "Potatoes" 750 "Manicaland" "Sakubva Market"
      (Some "Chido Couriers") "completed" "2024-06-14"
      (decimalToDouble false 15 (-2)) 120 ].

Record Config : Type := MkConfig { label : string; color : string; bg : string }.

Definition statusConfig : gmap string Config :=
  <["completed" := MkConfig "Completed" "#16a34a" "#f0fdf4"]>
    (<["in-progress" := MkConfig "In Progress" "#d97706" "#fffbeb"]>
       (<["pending" := MkConfig "Pending" "#dc2626" "#fef2f2"]> ∅)).

(** The names every object literal inherits from [Object.prototype]:
    looking one up gives a value that is not [undefined]. *)
Definition inheritedKeys : list string :=
  [ "constructor"; "__proto__"; "hasOwnProperty"; "isPrototypeOf";
    "propertyIsEnumerable"; "toLocaleString"; "toString"; "valueOf";
    "__defineGetter__"; "__defineSetter__"; "__lookupGetter__";
    "__lookupSetter__" ].

(** What [getStatusBadge] produces: a badge styled by the configuration
    entry, a badge whose style fields are all [undefined] (the lookup hit
    an inherited member), or a [TypeError] from reading [config.bg] of
    [undefined]. *)
Inductive rendering : Type :=
| Badge (config : Config)
| UnstyledBadge
| ThrowsTypeError.

Definition getStatusBadge (status : string) : rendering :=
  match statusConfig !! status with
  | Some config => Badge config
  | None =>
      if existsb (String.eqb status) inheritedKeys
      then UnstyledBadge
      else ThrowsTypeError
  end.

(** [jobs.filter(j => j.status === s).length], the "Job Distribution" card. *)
Definition countStatus (s : string) (js : list Job) : nat :=
  length (List.filter (fun j => String.eqb (status j) s) js).

(** [String.prototype.toLowerCase], on strings of code units below 256:
    the letters A to Z and the capital letters of Latin-1 move up by 32. *)
Definition lowerUnit (c : ascii) : ascii :=
  let n := Z.of_N (N_of_ascii c) in
  if ((65 <=? n) && (n <=? 90))
     || ((192 <=? n) && (n <=? 222) && negb (n =? 215))
  then ascii_of_N (Z.to_N (n + 32))
  else c.

Fixpoint toLowerCase (s : string) : string :=
  match s with
  | EmptyString => EmptyString
  | String c rest => String (lowerUnit c) (toLowerCase rest)
  end.

(** [s.includes(sub)]: [sub] occurs in [s] at some position. *)
Fixpoint includes (s sub : string) : bool :=
  String.prefix sub s
  || match s with
     | EmptyString => false
     | String _ rest => includes rest sub
     end.

Definition matchesFilter (filter : string) (job : Job) : bool :=
  String.eqb filter "all" || String.eqb (status job) filter.

Definition matchesSearch (searchTerm : string) (job : Job) : bool :=
  includes (toLowerCase (farmer job)) (toLowerCase searchTerm)
  || includes (toLowerCase (crop job)) (toLowerCase searchTerm).

(** [filteredJobs], for the table [js] held in the component's state. *)
Definition filteredJobs (js : list Job) (filter searchTerm : string) : list Job :=
  List.filter (fun job => matchesFilter filter job && matchesSearch searchTerm job) js.

End AdminJobs.

(** ** The decision engine the clients call

    No engine is part of the repository; the clients only call it.  What
    follows is the engine as the specification describes it, section by
    section. *)

Module Engine.

(** Modelled from the spec: the registry entry the Matching Engine reads
    (sections 3 and 4.1); the repository has no transporter registry.
    [tid] is the registration order, [locationAge] the age of the location
    snapshot. *)
Record Transporter : Type := MkTransporter {
  tid : nat;
  profile : TransporterProfile.t;
  rating : double;
  locationAge : Z
}.

(** Modelled from the spec: the lifecycle states of section 4.3; the
    repository has no Job Lifecycle Manager. *)
Inductive Status : Type :=
| requested | matched | in_transit | delivered | cancelled | failed.

(** Modelled from the spec: the name a lifecycle state has on the wire. *)
Definition statusName (s : Status) : string :=
  match s with
  | requested => "requested"
  | matched => "matched"
  | in_transit => "in_transit"
  | delivered => "delivered"
  | cancelled => "cancelled"
  | failed => "failed"
  end.

(** Modelled from the spec: terminal states (section 3, Lifecycle). *)
Definition terminal (s : Status) : bool :=
  match s with
  | delivered | cancelled | failed => true
  | requested | matched | in_transit => false
  end.

(** Modelled from the spec: the transitions of section 4.3, cancellation
    being open to every non-terminal state. *)
Definition edge (a b : Status) : bool :=
  match a, b with
  | requested, matched | matched, in_transit | in_transit, delivered
  | requested, cancelled | matched, cancelled | in_transit, cancelled
  | requested, failed => true
  | _, _ => false
  end.

(** Modelled from the spec: a job of the Job Lifecycle Manager, with the
    transporter it holds a reservation on, tentative or committed. *)
Record Job : Type := MkJob {
  request : FarmerRequest.t;
  status : Status;
  held : option nat
}.

(** Modelled from the spec: the shared assignment state of section 5, a
    reservation token per transporter (the job holding it) and the jobs. *)
Record Store : Type := MkStore {
  tokens : gmap nat nat;
  jobs : gmap nat Job
}.

Definition emptyStore : Store := MkStore ∅ ∅.

(** Modelled from the spec: the atomic compare-and-set on a reservation
    token (section 5): it succeeds on a free token only. *)
Definition compareAndSet (t j : nat) (tk : gmap nat nat) : option (gmap nat nat) :=
  match tk !! t with
  | None => Some (<[t := j]> tk)
  | Some _ => None
  end.

(** Modelled from the spec: release of the reservation of job [j]
    (sections 4.3 and 5); the token is cleared only by its holder. *)
Definition release (j : nat) (s : Store) : Store :=
  match jobs s !! j with
  | Some J =>
      match held J with
      | Some t =>
          MkStore
            (match tokens s !! t with
             | Some owner => if Nat.eqb owner j then delete t (tokens s) else tokens s
             | None => tokens s
             end)
            (<[j := MkJob (request J) (status J) None]> (jobs s))
      | None => s
      end
  | None => s
  end.

(** Modelled from the spec: move job [j] to status [st]. *)
Definition setStatus (j : nat) (st : Status) (s : Store) : Store :=
  match jobs s !! j with
  | Some J => MkStore (tokens s) (<[j := MkJob (request J) st (held J)]> (jobs s))
  | None => s
  end.

(** Modelled from the spec: the data model invariant behind "a job never
    holds two live assignments" (section 3): whoever holds a transporter
    owns its token. *)
Definition consistent (s : Store) : Prop :=
  forall j J t, jobs s !! j = Some J -> held J = Some t -> tokens s !! t = Some j.

Section Matching.

(** The staleness bound and the scoring function are configuration
    (section 9 leaves the weights open). *)
Variable ttl : Z.
Variable score : FarmerRequest.t -> Transporter -> Z.

(** Modelled from the spec: the filter of section 4.1. *)
Definition eligible (r : FarmerRequest.t) (t : Transporter) : bool :=
  TransporterProfile.availability (profile t)
  && ge (TransporterProfile.capacityKg (profile t)) (FarmerRequest.quantityKg r)
  && (locationAge t <=? ttl).

(** Modelled from the spec: the highest-scoring candidate, the earliest
    registered among equals (section 4.1); candidates come in registration
    order. *)
Fixpoint best (r : FarmerRequest.t) (candidates : list Transporter) : option Transporter :=
  match candidates with
  | [] => None
  | t :: rest =>
      match best r rest with
      | Some u => if score r t <? score r u then Some u else Some t
      | None => Some t
      end
  end.

(** Modelled from the spec: [match] of section 4.1; [None] is
    [NoMatchFound]. *)
Definition match_ (r : FarmerRequest.t) (pool : list Transporter) : option Transporter :=
  best r (List.filter (eligible r) pool).

(** Modelled from the spec: the operations that run concurrently, each one
    atomic (sections 4.3 and 5). *)
Inductive op : Type :=
| Submit (j : nat) (r : FarmerRequest.t)
| Match (j : nat) (pool : list Transporter)
| Commit (j : nat)
| Pickup (j : nat)
| Deliver (j : nat)
| Cancel (j : nat)
| TimeOut (j : nat).

(** Modelled from the spec: filter, score and tentative reserve as one
    atomic step: the best eligible transporter whose token is free is
    reserved by compare-and-set; with no candidate the job fails. *)
Definition matchAttempt (j : nat) (pool : list Transporter) (s : Store) : Store :=
  match jobs s !! j with
  | Some J =>
      match status J, held J with
      | requested, None =>
          let free t := match tokens s !! tid t with None => true | Some _ => false end in
          match match_ (request J) (List.filter free pool) with
          | Some t =>
              match compareAndSet (tid t) j (tokens s) with
              | Some tk =>
                  MkStore tk (<[j := MkJob (request J) requested (Some (tid t))]> (jobs s))
              | None => s
              end
          | None => setStatus j failed s
          end
      | _, _ => s
      end
  | None => s
  end.

(** Modelled from the spec: the transitions of section 4.3.  An operation
    that does not apply in the current state changes nothing. *)
Definition exec (o : op) (s : Store) : Store :=
  match o with
  | Submit j r =>
      match jobs s !! j with
      | None => MkStore (tokens s) (<[j := MkJob r requested None]> (jobs s))
      | Some _ => s
      end
  | Match j pool => matchAttempt j pool s
  | Commit j =>
      match jobs s !! j with
      | Some (MkJob _ requested (Some _)) => setStatus j matched s
      | _ => s
      end
  | Pickup j =>
      match jobs s !! j with
      | Some (MkJob _ matched _) => setStatus j in_transit s
      | _ => s
      end
  | Deliver j =>
      match jobs s !! j with
      | Some (MkJob _ in_transit _) => release j (setStatus j delivered s)
      | _ => s
      end
  | Cancel j =>
      match jobs s !! j with
      | Some J => if terminal (status J) then s else release j (setStatus j cancelled s)
      | None => s
      end
  | TimeOut j =>
      match jobs s !! j with
      | Some (MkJob _ requested _) => release j (setStatus j failed s)
      | _ => s
      end
  end.

(** Modelled from the spec: an interleaving of atomic operations. *)
Definition runOps (ops : list op) (s : Store) : Store :=
  fold_left (fun acc o => exec o acc) ops s.

End Matching.

End Engine.

(** ** Well-formed wire objects

    The shapes [fromJson] accepts, written as checks on a wire object.
    These follow the field list of the specification (section 6), not the
    code; the theorems below compare them with what the code accepts. *)

Module Wire.

Definition isString (v : dynamic) : bool :=
  match v with DString _ => true | _ => false end.

Definition isInt (v : dynamic) : bool :=
  match v with DInt _ => true | _ => false end.

Definition isNum (v : dynamic) : bool :=
  match v with DInt _ | DDouble _ => true | _ => false end.

Definition isBool (v : dynamic) : bool :=
  match v with DBool _ => true | _ => false end.

Definition isMap (v : dynamic) : bool :=
  match v with DMap _ => true | _ => false end.

Definition nullOr (p : dynamic -> bool) (v : dynamic) : bool :=
  match v with DNull => true | _ => p v end.

Definition farmerRequestOk (v : dynamic) : bool :=
  match v with
  | DMap m =>
      isString (index m "crop_type")
      && isNum (index m "quantity_kg")
      && isString (index m "location")
      && isString (index m "destination_market")
      && nullOr isString (index m "preferred_delivery_time")
  | _ => false
  end.

Definition transporterOk (v : dynamic) : bool :=
  match v with
  | DMap m =>
      isString (index m "vehicle_type")
      && isNum (index m "capacity_kg")
      && isString (index m "current_location")
      && isBool (index m "availability")
      && isString (index m "contact_info")
  | _ => false
  end.

(** The fields a job cannot be read without. *)
Definition requiredOk (w : Map) : bool :=
  nullOr isInt (index w "id")
  && farmerRequestOk (index w "farmer_request")
  && isString (index w "status")
  && nullOr isString (index w "created_at").

(** The optional fields: absent, [null], or of the right shape. *)
Definition optionalOk (w : Map) : bool :=
  nullOr transporterOk (index w "transporter")
  && nullOr isString (index w "estimated_arrival")
  && nullOr isMap (index w "route_optimization")
  && nullOr isNum (index w "spoilage_risk").

(** The edges the first sentence of section 4.3 lists: the main line
    [requested], [matched], [in_transit], [delivered] and the three branch
    exits. *)
Definition listedEdges : list (Engine.Status * Engine.Status) :=
  [ (Engine.requested, Engine.matched);
    (Engine.matched, Engine.in_transit);
    (Engine.in_transit, Engine.delivered);
    (Engine.matched, Engine.cancelled);
    (Engine.in_transit, Engine.cancelled);
    (Engine.requested, Engine.failed) ].

(** The lifecycle states section 4.3 names. *)
Definition lifecycleNames : list string :=
  [ "requested"; "matched"; "in_transit"; "delivered"; "cancelled"; "failed" ].

Definition fieldNames : list string :=
  [ "id"; "farmer_request"; "transporter"; "status"; "estimated_arrival";
    "route_optimization"; "spoilage_risk"; "created_at" ].

(** The outcome the specification gives a match-transport answer: a job
    on HTTP 200 with [success] true and a readable [transport_job],
    nothing otherwise. *)
Definition jobOfReply (r : ApiService.reply) : option TransportJob.t :=
  match r with
  | ApiService.Response code (Some (DMap m)) =>
      if code =? 200 then
        match index m "success", index m "transport_job" with
        | DBool true, DMap tj =>
            match TransportJob.fromJson tj with
            | Ok job => Some job
            | Throw _ => None
            end
        | _, _ => None
        end
      else None
  | _ => None
  end.


End Wire.

(** ** Sample data *)

Module Samples.

Definition request : FarmerRequest.t :=
  FarmerRequest.Build "tomatoes" (int_toDouble 500) "Mashonaland East"
    "Mbare Musika" None.

Definition truck : TransporterProfile.t :=
  TransporterProfile.Build "truck" (int_toDouble 2000) "Harare" true
    "+263775678901".

Definition job : TransportJob.t :=
  TransportJob.Build (Some 7) request (Some truck) "matched" None None
    (Some (decimalToDouble false 15 (-2))) (Some "2024-06-15T08:00:00").

(** A job as the backend sends it before anything is computed. *)
Definition pendingWire : Map :=
  [ ("id", DInt 7);
    ("farmer_request", DMap (FarmerRequest.toJson request));
    ("status", DString "requested");
    ("created_at", DString "2024-06-15T08:00:00") ].

(** A transporter on the wire with a capacity of zero and, as in the
    admin client's list, a rating. *)
Definition ratedWire : Map :=
  [ ("vehicle_type", DString "truck");
    ("capacity_kg", DInt 0);
    ("current_location", DString "Harare");
    ("availability", DBool true);
    ("contact_info", DString "+263775678901");
    ("rating", DDouble (decimalToDouble false 45 (-1))) ].

(** A backend that matches every request with [job]. *)
Definition matching : ApiService.backend :=
  fun _ _ =>
    ApiService.Response 200
      (Some (DMap [ ("success", DBool true);
                    ("transport_job", DMap (TransportJob.toJson job)) ])).

(** The form filled in for 500 kg of tomatoes. *)
Definition filled : FarmerScreen.State :=
  FarmerScreen.Build (Some "tomatoes") "500" "Mashonaland East" "Mbare Musika"
    false None.


(** A farmer asking for 500 kg of tomatoes. *)
Definition tomatoes500 : list FarmerScreen.event :=
  [ FarmerScreen.CropChanged 0;
    FarmerScreen.QuantityEdited "500";
    FarmerScreen.LocationEdited "Mashonaland East";
    FarmerScreen.MarketEdited "Mbare Musika";
    FarmerScreen.FindTransportPressed matching ].


(** The two jobs the transporter screen loads. *)
Definition tomatoJob : Map := nth 0 TransporterScreen.mockJobs [].
Definition maizeJob : Map := nth 1 TransporterScreen.mockJobs [].

(** The jobs whose id is the integer 2. *)
Definition isJobTwo (job : Map) : bool :=
  match index job "id" with
  | DInt 2 => true
  | _ => false
  end.

Definition maizeRequest : FarmerRequest.t :=
  FarmerRequest.Build "maize" (int_toDouble 1000) "Mashonaland Central"
    "Sakubva Market" None.

Definition onlyTruck : Engine.Transporter :=
  Engine.MkTransporter 1 truck (decimalToDouble false 45 (-1)) 0.

Definition flatScore (r : FarmerRequest.t) (t : Engine.Transporter) : Z := 0.

(** A request cancelled before any match was tried. *)
Definition cancelledEarly : list Engine.op :=
  [ Engine.Submit 1 request; Engine.Cancel 1 ].

(** Two requests racing for a pool of one. *)
Definition race : list Engine.op :=
  [ Engine.Submit 1 request; Engine.Submit 2 maizeRequest;
    Engine.Match 1 [onlyTruck]; Engine.Match 2 [onlyTruck];
    Engine.Commit 1 ].

End Samples.

(** * Properties *)

(** ** Casts *)

Lemma index_absent (m : Map) (key : string) :
  containsKey m key = false -> index m key = DNull.
Proof.
  unfold containsKey. induction m as [|[k v] m IH]; simpl; [reflexivity|].
  intros H. apply orb_false_iff in H as [Hk Hm].
  rewrite String.eqb_sym, Hk. auto.
Qed.

Lemma isString_cast v : Wire.isString v = true <-> exists s, as_String v = Ok s.
Proof.
  split.
  - destruct v; simpl; try discriminate. eauto.
  - intros [s H]. destruct v; simpl in *; congruence.
Qed.

Lemma isBool_cast v : Wire.isBool v = true <-> exists b, as_bool v = Ok b.
Proof.
  split.
  - destruct v; simpl; try discriminate. eauto.
  - intros [s H]. destruct v; simpl in *; congruence.
Qed.

Lemma isNum_cast v : Wire.isNum v = true <-> exists d, toDouble v = Ok d.
Proof.
  split.
  - destruct v; simpl; try discriminate; eauto.
  - intros [s H]. destruct v; simpl in *; congruence.
Qed.

Lemma nullOr_isString_cast v :
  Wire.nullOr Wire.isString v = true <-> exists o, as_String_opt v = Ok o.
Proof.
  split.
  - destruct v; simpl; try discriminate; eauto.
  - intros [s H]. destruct v; simpl in *; congruence.
Qed.

Lemma nullOr_isInt_cast v :
  Wire.nullOr Wire.isInt v = true <-> exists o, as_int_opt v = Ok o.
Proof.
  split.
  - destruct v; simpl; try discriminate; eauto.
  - intros [s H]. destruct v; simpl in *; congruence.
Qed.

Lemma nullOr_isMap_cast v :
  Wire.nullOr Wire.isMap v = true <-> exists o, as_Map_opt v = Ok o.
Proof.
  split.
  - destruct v; simpl; try discriminate; eauto.
  - intros [s H]. destruct v; simpl in *; congruence.
Qed.

Lemma nullOr_isNum_cast v :
  Wire.nullOr Wire.isNum v = true <-> exists o, toDouble_opt v = Ok o.
Proof.
  split.
  - destruct v; simpl; try discriminate; eauto.
  - intros [s H]. destruct v; simpl in *; congruence.
Qed.

Lemma bind_Ok {A B} (r : result A) (k : A -> result B) (b : B) :
  bind r k = Ok b <-> exists a, r = Ok a /\ k a = Ok b.
Proof.
  destruct r; simpl; split.
  - eauto.
  - intros (a' & [= ->] & H). exact H.
  - discriminate.
  - intros (a' & [=] & _).
Qed.

(** ** The JSON models *)

Lemma FarmerRequest_roundtrip (r : FarmerRequest.t) :
  FarmerRequest.fromJson (FarmerRequest.toJson r) = Ok r.
Proof. destruct r as [c q l d [p|]]; reflexivity. Qed.

Lemma TransporterProfile_roundtrip (p : TransporterProfile.t) :
  TransporterProfile.fromJson (TransporterProfile.toJson p) = Ok p.
Proof. destruct p; reflexivity. Qed.

Lemma FarmerRequest_accepts v :
  Wire.farmerRequestOk v = true <->
  exists m r, v = DMap m /\ FarmerRequest.fromJson m = Ok r.
Proof.
  split.
  - destruct v as [| | | | | |m]; simpl; try discriminate.
    rewrite !andb_true_iff. intros ((((H1 & H2) & H3) & H4) & H5).
    apply isString_cast in H1 as [c H1], H3 as [l H3], H4 as [d H4].
    apply isNum_cast in H2 as [q H2].
    apply nullOr_isString_cast in H5 as [p H5].
    exists m. eexists. split; [reflexivity|].
    unfold FarmerRequest.fromJson.
    rewrite H1, H2, H3, H4, H5. reflexivity.
  - intros (m & r & -> & H). simpl.
    unfold FarmerRequest.fromJson in H.
    apply bind_Ok in H as (c & H1 & H).
    apply bind_Ok in H as (q & H2 & H).
    apply bind_Ok in H as (l & H3 & H).
    apply bind_Ok in H as (d & H4 & H).
    apply bind_Ok in H as (p & H5 & _).
    rewrite !andb_true_iff. repeat split.
    + apply isString_cast; eauto.
    + apply isNum_cast; eauto.
    + apply isString_cast; eauto.
    + apply isString_cast; eauto.
    + apply nullOr_isString_cast; eauto.
Qed.

Lemma TransporterProfile_accepts v :
  Wire.transporterOk v = true <->
  exists m p, v = DMap m /\ TransporterProfile.fromJson m = Ok p.
Proof.
  split.
  - destruct v as [| | | | | |m]; simpl; try discriminate.
    rewrite !andb_true_iff. intros ((((H1 & H2) & H3) & H4) & H5).
    apply isString_cast in H1 as [c H1], H3 as [l H3], H5 as [d H5].
    apply isNum_cast in H2 as [q H2].
    apply isBool_cast in H4 as [a H4].
    exists m. eexists. split; [reflexivity|].
    unfold TransporterProfile.fromJson.
    rewrite H1, H2, H3, H4, H5. reflexivity.
  - intros (m & r & -> & H). simpl.
    unfold TransporterProfile.fromJson in H.
    apply bind_Ok in H as (c & H1 & H).
    apply bind_Ok in H as (q & H2 & H).
    apply bind_Ok in H as (l & H3 & H).
    apply bind_Ok in H as (d & H4 & H).
    apply bind_Ok in H as (p & H5 & _).
    rewrite !andb_true_iff. repeat split.
    + apply isString_cast; eauto.
    + apply isNum_cast; eauto.
    + apply isString_cast; eauto.
    + apply isBool_cast; eauto.
    + apply isString_cast; eauto.
Qed.

Lemma readTransporter_accepts v :
  Wire.nullOr Wire.transporterOk v = true <-> exists o, TransportJob.readTransporter v = Ok o.
Proof.
  destruct v as [| | | | | |m]; simpl;
    try (split; [discriminate | intros [o [=]]]).
  - split; eauto.
  - change (Wire.transporterOk (DMap m) = true <->
            exists o, bind (TransporterProfile.fromJson m) (fun p => Ok (Some p)) = Ok o).
    rewrite TransporterProfile_accepts. split.
    + intros (m' & p & [= <-] & H). rewrite H. simpl. eauto.
    + intros (o & H). apply bind_Ok in H as (p & H & _). eauto.
Qed.

Lemma TransportJob_fromJson_unfold (w : Map) :
  TransportJob.fromJson w =
  (let! id := as_int_opt (index w "id") in
   let! fr := as_Map (index w "farmer_request") in
   let! farmerRequest := FarmerRequest.fromJson fr in
   let! transporter := TransportJob.readTransporter (index w "transporter") in
   let! status := as_String (index w "status") in
   let! estimatedArrival := as_String_opt (index w "estimated_arrival") in
   let! routeOptimization := as_Map_opt (index w "route_optimization") in
   let! spoilageRisk := toDouble_opt (index w "spoilage_risk") in
   let! createdAt := as_String_opt (index w "created_at") in
   Ok (TransportJob.Build id farmerRequest transporter status estimatedArrival
         routeOptimization spoilageRisk createdAt)).
Proof. reflexivity. Qed.

Lemma TransportJob_accepts (w : Map) :
  Wire.requiredOk w && Wire.optionalOk w = true <->
  exists job, TransportJob.fromJson w = Ok job.
Proof.
  rewrite TransportJob_fromJson_unfold. unfold Wire.requiredOk, Wire.optionalOk.
  rewrite !andb_true_iff. split.
  - intros ((((H1 & H2) & H3) & H4) & (((H5 & H6) & H7) & H8)).
    apply nullOr_isInt_cast in H1 as [i H1].
    apply FarmerRequest_accepts in H2 as (m & r & H2 & H2').
    apply isString_cast in H3 as [s H3].
    apply nullOr_isString_cast in H4 as [ca H4], H6 as [ea H6].
    apply readTransporter_accepts in H5 as [tr H5].
    apply nullOr_isMap_cast in H7 as [ro H7].
    apply nullOr_isNum_cast in H8 as [sr H8].
    rewrite H1, H2. simpl. rewrite H2'. simpl.
    rewrite H5, H3, H6, H7, H8, H4. simpl. eauto.
  - intros (job & H).
    apply bind_Ok in H as (i & H1 & H).
    apply bind_Ok in H as (m & H2 & H).
    apply bind_Ok in H as (r & H2' & H).
    apply bind_Ok in H as (tr & H5 & H).
    apply bind_Ok in H as (s & H3 & H).
    apply bind_Ok in H as (ea & H6 & H).
    apply bind_Ok in H as (ro & H7 & H).
    apply bind_Ok in H as (sr & H8 & H).
    apply bind_Ok in H as (ca & H4 & _).
    repeat split.
    + apply nullOr_isInt_cast; eauto.
    + apply FarmerRequest_accepts. exists m, r. split; [|exact H2'].
      destruct (index w "farmer_request"); simpl in H2; congruence.
    + apply isString_cast; eauto.
    + apply nullOr_isString_cast; eauto.
    + apply readTransporter_accepts; eauto.
    + apply nullOr_isString_cast; eauto.
    + apply nullOr_isMap_cast; eauto.
    + apply nullOr_isNum_cast; eauto.
Qed.

Lemma TransportJob_fromJson_toJson (j : TransportJob.t) :
  TransportJob.fromJson (TransportJob.toJson j) = Ok j.
Proof.
  destruct j as [i r tr s ea ro sr ca].
  rewrite TransportJob_fromJson_unfold.
  cbn [TransportJob.toJson index String.eqb Ascii.eqb Bool.eqb
       TransportJob.id TransportJob.farmerRequest TransportJob.transporter
       TransportJob.status TransportJob.estimatedArrival
       TransportJob.routeOptimization TransportJob.spoilageRisk
       TransportJob.createdAt].
  destruct i; cbn [of_opt as_int_opt bind as_Map].
  all: rewrite FarmerRequest_roundtrip; cbn [bind].
  all: destruct tr as [p|]; cbn [of_opt TransportJob.readTransporter as_Map bind];
    try rewrite TransporterProfile_roundtrip; cbn [bind as_String].
  all: destruct ea, ro, sr, ca; reflexivity.
Qed.

(** C1. Serializing a [TransportJob] with [toJson] and reading the map back
    with [fromJson] gives the job back, field for field, the embedded
    [FarmerRequest] and the optional [TransporterProfile] included. *)
Theorem TransportJob_roundtrip (j : TransportJob.t) :
  TransportJob.fromJson (TransportJob.toJson j) = Ok j.
Proof. apply TransportJob_fromJson_toJson. Qed.

(** C2. The wire form of a [TransportJob] has exactly the fields [id],
    [farmer_request], [transporter], [status], [estimated_arrival],
    [route_optimization], [spoilage_risk], [created_at]; and a wire object
    whose other fields are in order is read successfully whichever of the
    optional fields are absent, each absent one being read as [null]. *)
Theorem TransportJob_wire_optional_fields (j : TransportJob.t) (w : Map) :
  keys (TransportJob.toJson j) = Wire.fieldNames /\
  (Wire.requiredOk w = true -> Wire.optionalOk w = true ->
   exists job, TransportJob.fromJson w = Ok job /\
     (containsKey w "transporter" = false ->
        TransportJob.transporter job = None) /\
     (containsKey w "estimated_arrival" = false ->
        TransportJob.estimatedArrival job = None) /\
     (containsKey w "route_optimization" = false ->
        TransportJob.routeOptimization job = None) /\
     (containsKey w "spoilage_risk" = false ->
        TransportJob.spoilageRisk job = None)).
Proof.
  split; [reflexivity|]. intros Hreq Hopt.
  destruct (proj1 (TransportJob_accepts w)) as [job Hjob].
  { rewrite Hreq, Hopt. reflexivity. }
  exists job. split; [exact Hjob|].
  rewrite TransportJob_fromJson_unfold in Hjob.
  apply bind_Ok in Hjob as (i & _ & H).
  apply bind_Ok in H as (m & _ & H).
  apply bind_Ok in H as (r & _ & H).
  apply bind_Ok in H as (tr & H5 & H).
  apply bind_Ok in H as (s & _ & H).
  apply bind_Ok in H as (ea & H6 & H).
  apply bind_Ok in H as (ro & H7 & H).
  apply bind_Ok in H as (sr & H8 & H).
  apply bind_Ok in H as (ca & _ & [= <-]).
  cbn. repeat split; intros Habs; apply index_absent in Habs;
    rewrite Habs in *; simpl in *; congruence.
Qed.

Lemma TransportJob_wire_optional_fields_witness :
  exists job, TransportJob.fromJson Samples.pendingWire = Ok job /\
     (containsKey Samples.pendingWire "transporter" = false ->
        TransportJob.transporter job = None) /\
     (containsKey Samples.pendingWire "estimated_arrival" = false ->
        TransportJob.estimatedArrival job = None) /\
     (containsKey Samples.pendingWire "route_optimization" = false ->
        TransportJob.routeOptimization job = None) /\
     (containsKey Samples.pendingWire "spoilage_risk" = false ->
        TransportJob.spoilageRisk job = None).
Proof.
  apply (proj2 (TransportJob_wire_optional_fields Samples.job Samples.pendingWire));
    reflexivity.
Defined.

(** C7, as the code has it.  A [TransporterProfile] carries a vehicle type,
    a capacity, a current location, an availability flag and a contact
    reference, and these five fields survive the JSON round trip; the
    capacity is whatever number the wire object holds, and there is no
    rating. *)
Theorem TransporterProfile_five_fields (p : TransporterProfile.t) (m : Map) :
  TransporterProfile.fromJson (TransporterProfile.toJson p) = Ok p /\
  keys (TransporterProfile.toJson p) =
    [ "vehicle_type"; "capacity_kg"; "current_location"; "availability";
      "contact_info" ] /\
  (forall q, TransporterProfile.fromJson m = Ok q ->
     toDouble (index m "capacity_kg") = Ok (TransporterProfile.capacityKg q)).
Proof.
  split; [apply TransporterProfile_roundtrip|]. split; [reflexivity|].
  intros q H. unfold TransporterProfile.fromJson in H.
  apply bind_Ok in H as (v & _ & H).
  apply bind_Ok in H as (c & Hc & H).
  apply bind_Ok in H as (l & _ & H).
  apply bind_Ok in H as (a & _ & H).
  apply bind_Ok in H as (ci & _ & [= <-]).
  exact Hc.
Qed.

Lemma TransporterProfile_five_fields_witness :
  toDouble (index Samples.ratedWire "capacity_kg") =
  Ok (TransporterProfile.capacityKg
        (TransporterProfile.Build "truck" (S754_zero false) "Harare" true
           "+263775678901")).
Proof.
  apply (proj2 (proj2 (TransporterProfile_five_fields Samples.truck Samples.ratedWire))).
  reflexivity.
Defined.

(** C7 as stated fails: a wire object with capacity 0 and a rating is read
    into a profile whose capacity is not above zero, and writing that
    profile back has lost the rating. *)
Lemma TransporterProfile_capacity_rating_counterexample :
  exists p,
    TransporterProfile.fromJson Samples.ratedWire = Ok p /\
    lt zero (TransporterProfile.capacityKg p) = false /\
    containsKey Samples.ratedWire "rating" = true /\
    containsKey (TransporterProfile.toJson p) "rating" = false.
Proof. eexists. repeat split. Qed.

(** ** The transporter screen *)

Lemma filter_removeWhere {A} (P test : A -> bool) (l : list A) :
  (forall x, P x = true -> test x = false) ->
  List.filter P (TransporterScreen.removeWhere test l) = List.filter P l.
Proof.
  intros HP. unfold TransporterScreen.removeWhere.
  induction l as [|x l IH]; simpl; [reflexivity|].
  destruct (test x) eqn:Ht; simpl.
  - destruct (P x) eqn:Hp; [|exact IH].
    apply HP in Hp. congruence.
  - rewrite IH. reflexivity.
Qed.

Lemma removeWhere_Forall {A} (test : A -> bool) (l : list A) :
  Forall (fun x => test x = false) (TransporterScreen.removeWhere test l).
Proof.
  unfold TransporterScreen.removeWhere. apply List.Forall_forall.
  intros x Hx. apply List.filter_In in Hx as [_ Hx].
  destruct (test x); [discriminate|reflexivity].
Qed.

Lemma removeWhere_idempotent {A} (test : A -> bool) (l : list A) :
  TransporterScreen.removeWhere test (TransporterScreen.removeWhere test l) =
  TransporterScreen.removeWhere test l.
Proof.
  unfold TransporterScreen.removeWhere at 1.
  apply filter_removeWhere. intros x Hx. destruct (test x); [discriminate|reflexivity].
Qed.

(** C10. Accepting job [jobId] takes out of the list of available jobs
    every job whose [id] is [jobId] (a [double] id that equals it as a
    number included) and leaves the jobs with other ids as they were: each
    one stays, and any selection of them reads the same before and after
    (same jobs, same order).  Nothing is added.  Accepting the same id
    again changes nothing. *)
Theorem acceptJob_removes_exactly (jobId : Z) (st : TransporterScreen.State) :
  let before := TransporterScreen._availableJobs st in
  let st1 := fst (TransporterScreen._acceptJob jobId st) in
  let after := TransporterScreen._availableJobs st1 in
  (forall job, index job "id" = DInt jobId -> ~ In job after) /\
  (forall job d, index job "id" = DDouble d ->
     SFeqb d (int_toDouble jobId) = true -> ~ In job after) /\
  (forall job k, index job "id" = DInt k -> k <> jobId ->
     In job before -> In job after) /\
  (forall P : Map -> bool,
     (forall job, P job = true -> exists k, index job "id" = DInt k /\ k <> jobId) ->
     List.filter P after = List.filter P before) /\
  (forall job, In job after -> In job before) /\
  Forall (fun job => TransporterScreen.hasId jobId job = false) after /\
  (forall P : Map -> bool,
     (forall job, P job = true -> TransporterScreen.hasId jobId job = false) ->
     List.filter P after = List.filter P before) /\
  fst (TransporterScreen._acceptJob jobId st1) = st1.
Proof.
  destruct st as [jobs loading available].
  unfold TransporterScreen._acceptJob.
  cbn [fst TransporterScreen._availableJobs TransporterScreen._isLoading
       TransporterScreen._isAvailable].
  assert (forall job, In job (TransporterScreen.removeWhere
                                (TransporterScreen.hasId jobId) jobs) <->
                      In job jobs /\ TransporterScreen.hasId jobId job = false)
    as Hin.
  { intros job. unfold TransporterScreen.removeWhere. rewrite List.filter_In.
    destruct (TransporterScreen.hasId jobId job); simpl; intuition congruence. }
  split; [|split; [|split; [|split; [|split; [|split; [|split]]]]]].
  - intros job Hid [_ Hno]%Hin. unfold TransporterScreen.hasId in Hno.
    rewrite Hid in Hno. simpl in Hno. rewrite Z.eqb_refl in Hno. discriminate.
  - intros job d Hid Heq [_ Hno]%Hin. unfold TransporterScreen.hasId in Hno.
    rewrite Hid in Hno. simpl in Hno. congruence.
  - intros job k Hid Hk Hjob. apply Hin. split; [exact Hjob|].
    unfold TransporterScreen.hasId. rewrite Hid. simpl. now apply Z.eqb_neq.
  - intros P HP. apply filter_removeWhere. intros job Hjob.
    destruct (HP job Hjob) as (k & Hid & Hk).
    unfold TransporterScreen.hasId. rewrite Hid. simpl. now apply Z.eqb_neq.
  - intros job [Hjob _]%Hin. exact Hjob.
  - apply removeWhere_Forall.
  - intros P HP. apply filter_removeWhere, HP.
  - rewrite removeWhere_idempotent. reflexivity.
Qed.

Lemma acceptJob_removes_exactly_witness :
  ~ In Samples.tomatoJob
      (TransporterScreen._availableJobs
         (fst (TransporterScreen._acceptJob 1
                 (TransporterScreen._loadAvailableJobs TransporterScreen.initState)))) /\
  In Samples.maizeJob
     (TransporterScreen._availableJobs
        (fst (TransporterScreen._acceptJob 1
                (TransporterScreen._loadAvailableJobs TransporterScreen.initState)))) /\
  List.filter Samples.isJobTwo
    (TransporterScreen._availableJobs
       (fst (TransporterScreen._acceptJob 1
               (TransporterScreen._loadAvailableJobs TransporterScreen.initState)))) =
  List.filter Samples.isJobTwo
    (TransporterScreen._availableJobs
       (TransporterScreen._loadAvailableJobs TransporterScreen.initState)).
Proof.
  destruct (acceptJob_removes_exactly 1
              (TransporterScreen._loadAvailableJobs TransporterScreen.initState))
    as (Hgone & _ & Hkept & Hsame & _).
  split; [|split].
  - apply Hgone. reflexivity.
  - apply (Hkept Samples.maizeJob 2).
    + reflexivity.
    + discriminate.
    + right. left. reflexivity.
  - apply Hsame. intros job H. unfold Samples.isJobTwo in H.
    destruct (index job "id") as [| |n| | | |]; try discriminate H.
    exists n. split; [reflexivity|]. intros ->. discriminate H.
Defined.

(** ** The admin job table *)

Lemma getStatusBadge_configured (s : string) :
  (exists c, AdminJobs.getStatusBadge s = AdminJobs.Badge c) <->
  In s ["completed"; "in-progress"; "pending"].
Proof.
  unfold AdminJobs.getStatusBadge, AdminJobs.statusConfig.
  rewrite !lookup_insert, lookup_empty. split.
  - intros [c H]. repeat case_decide; subst; simpl; auto.
    destruct (existsb _ _); discriminate H.
  - intros [<-|[<-|[<-|[]]]]; repeat (case_decide; try congruence); eauto.
Qed.

(** ** The decision engine *)

Lemma SFcompare_antisym (x y : spec_float) (c : comparison) :
  SFcompare x y = Some c -> SFcompare y x = Some (CompOpp c).
Proof.
  destruct x as [sx|sx| |sx mx ex], y as [sy|sy| |sy my ey]; simpl;
    try discriminate;
    try (intros [= <-]; try destruct sx; try destruct sy; reflexivity).
  intros [= <-]. f_equal.
  rewrite (Z.compare_antisym ex ey).
  change (Pos.compare_cont Eq my mx) with (Pos.compare my mx).
  change (Pos.compare_cont Eq mx my) with (Pos.compare mx my).
  rewrite (Pos.compare_antisym mx my).
  destruct sx, sy; simpl; try reflexivity;
    destruct (ex ?= ey); simpl; try reflexivity;
    destruct (mx ?= my)%positive; reflexivity.
Qed.

Lemma ge_not_lt (a b : double) : ge a b = true -> lt a b = false.
Proof.
  unfold ge, lt, SFleb, SFltb. intros H.
  destruct (SFcompare b a) as [c|] eqn:Hc; [|discriminate].
  rewrite (SFcompare_antisym _ _ _ Hc). destruct c; simpl in *; congruence.
Qed.

Section MatchingFacts.

Variable ttl : Z.
Variable score : FarmerRequest.t -> Engine.Transporter -> Z.

Lemma best_In r candidates t :
  Engine.best score r candidates = Some t -> In t candidates.
Proof.
  revert t. induction candidates as [|c cs IH]; simpl; [discriminate|].
  intros t. destruct (Engine.best score r cs) as [u|].
  - destruct (score r c <? score r u); intros [= <-]; auto.
  - intros [= <-]. auto.
Qed.

Lemma match_eligible r pool t :
  Engine.match_ ttl score r pool = Some t ->
  In t pool /\ Engine.eligible ttl r t = true.
Proof.
  unfold Engine.match_. intros H. apply best_In in H.
  apply List.filter_In in H. exact H.
Qed.

Lemma consistent_setStatus j st s :
  Engine.consistent s -> Engine.consistent (Engine.setStatus j st s).
Proof.
  unfold Engine.setStatus. intros Hs.
  destruct (Engine.jobs s !! j) as [J|] eqn:HJ; [|exact Hs].
  intros j' J' t'. cbn [Engine.jobs Engine.tokens].
  destruct (decide (j = j')) as [<-|Hne].
  - rewrite lookup_insert_eq. intros [= <-]. cbn. apply Hs, HJ.
  - rewrite lookup_insert_ne by exact Hne. apply Hs.
Qed.

Lemma consistent_release j s :
  Engine.consistent s -> Engine.consistent (Engine.release j s).
Proof.
  unfold Engine.release. intros Hs.
  destruct (Engine.jobs s !! j) as [J|] eqn:HJ; [|exact Hs].
  destruct (Engine.held J) as [t|] eqn:Ht; [|exact Hs].
  rewrite (Hs j J t HJ Ht), Nat.eqb_refl.
  intros j' J' t'. cbn [Engine.jobs Engine.tokens].
  destruct (decide (j = j')) as [<-|Hne].
  - rewrite lookup_insert_eq. intros [= <-]. discriminate.
  - rewrite lookup_insert_ne by exact Hne. intros HJ' Ht'.
    pose proof (Hs j' J' t' HJ' Ht') as Htok.
    rewrite lookup_delete_ne; [exact Htok|].
    intros <-. rewrite (Hs j J t HJ Ht) in Htok. congruence.
Qed.

Lemma consistent_matchAttempt j pool s :
  Engine.consistent s -> Engine.consistent (Engine.matchAttempt ttl score j pool s).
Proof.
  unfold Engine.matchAttempt. intros Hs.
  destruct (Engine.jobs s !! j) as [J|] eqn:HJ; [|exact Hs].
  destruct (Engine.status J); try exact Hs.
  destruct (Engine.held J) eqn:Hh; [exact Hs|].
  destruct (Engine.match_ _ _ _ _) as [tr|]; [|apply consistent_setStatus, Hs].
  unfold Engine.compareAndSet.
  destruct (Engine.tokens s !! Engine.tid tr) eqn:Htok; [exact Hs|].
  intros j' J' t'. cbn [Engine.jobs Engine.tokens].
  destruct (decide (j = j')) as [<-|Hne].
  - rewrite lookup_insert_eq. intros [= <-]. cbn. intros [= <-].
    apply lookup_insert_eq.
  - rewrite lookup_insert_ne by exact Hne. intros HJ' Ht'.
    pose proof (Hs j' J' t' HJ' Ht') as Howner.
    rewrite lookup_insert_ne; [exact Howner|].
    intros <-. congruence.
Qed.

Lemma consistent_exec o s :
  Engine.consistent s -> Engine.consistent (Engine.exec ttl score o s).
Proof.
  intros Hs. destruct o as [j r|j pool|j|j|j|j|j]; cbn [Engine.exec].
  - destruct (Engine.jobs s !! j) eqn:HJ; [exact Hs|].
    intros j' J' t'. cbn [Engine.jobs Engine.tokens].
    destruct (decide (j = j')) as [<-|Hne].
    + rewrite lookup_insert_eq. intros [= <-]. discriminate.
    + rewrite lookup_insert_ne by exact Hne. apply Hs.
  - apply consistent_matchAttempt, Hs.
  - repeat case_match; try exact Hs; apply consistent_setStatus, Hs.
  - repeat case_match; try exact Hs; apply consistent_setStatus, Hs.
  - repeat case_match; try exact Hs;
      apply consistent_release, consistent_setStatus, Hs.
  - repeat case_match; try exact Hs;
      apply consistent_release, consistent_setStatus, Hs.
  - repeat case_match; try exact Hs;
      apply consistent_release, consistent_setStatus, Hs.
Qed.

Lemma consistent_runOps ops s :
  Engine.consistent s -> Engine.consistent (Engine.runOps ttl score ops s).
Proof.
  unfold Engine.runOps. revert s.
  induction ops as [|o ops IH]; intros s Hs; simpl; [exact Hs|].
  apply IH, consistent_exec, Hs.
Qed.

Lemma consistent_emptyStore : Engine.consistent Engine.emptyStore.
Proof. intros j J t H. cbn in H. rewrite lookup_empty in H. discriminate. Qed.

Lemma jobs_setStatus j st s j0 :
  Engine.jobs (Engine.setStatus j st s) !! j0 =
  if decide (j = j0)
  then (fun J => Engine.MkJob (Engine.request J) st (Engine.held J)) <$> Engine.jobs s !! j0
  else Engine.jobs s !! j0.
Proof.
  unfold Engine.setStatus. destruct (decide (j = j0)) as [<-|Hne].
  - destruct (Engine.jobs s !! j) eqn:HJ; cbn [Engine.jobs].
    + now rewrite lookup_insert_eq.
    + now rewrite HJ.
  - destruct (Engine.jobs s !! j); cbn [Engine.jobs]; [|reflexivity].
    now rewrite lookup_insert_ne.
Qed.

Lemma jobs_release j s j0 :
  Engine.status <$> Engine.jobs (Engine.release j s) !! j0 =
  Engine.status <$> Engine.jobs s !! j0.
Proof.
  unfold Engine.release.
  destruct (Engine.jobs s !! j) as [J|] eqn:HJ; [|reflexivity].
  destruct (Engine.held J); [|reflexivity]. cbn [Engine.jobs].
  destruct (decide (j = j0)) as [<-|Hne].
  - now rewrite lookup_insert_eq, HJ.
  - now rewrite lookup_insert_ne.
Qed.

(** In the engine as specified, an operation leaves the status of a job
    alone or moves it along an edge of the lifecycle; a terminal status
    has no edge out. *)
Lemma exec_follows_lifecycle o s j a :
  Engine.status <$> Engine.jobs s !! j = Some a ->
  exists b, Engine.status <$> Engine.jobs (Engine.exec ttl score o s) !! j = Some b /\
            (b = a \/ Engine.edge a b = true).
Proof.
  intros Ha.
  assert (forall j' st,
            (j' = j -> Engine.edge a st = true) ->
            exists b, Engine.status <$> Engine.jobs (Engine.setStatus j' st s) !! j = Some b /\
                      (b = a \/ Engine.edge a b = true)) as Hset.
  { intros j' st Hedge. rewrite jobs_setStatus.
    destruct (decide (j' = j)) as [->|_]; [|eauto].
    destruct (Engine.jobs s !! j) as [J|]; [|discriminate].
    cbn. eauto. }
  assert (exists b, Engine.status <$> Engine.jobs s !! j = Some b /\
                    (b = a \/ Engine.edge a b = true)) as Hsame by eauto.
  destruct o as [j' r|j' pool|j'|j'|j'|j'|j']; cbn [Engine.exec].
  - destruct (Engine.jobs s !! j') eqn:HJ; [exact Hsame|]. cbn [Engine.jobs].
    rewrite lookup_insert_ne; [exact Hsame|]. intros ->. now rewrite HJ in Ha.
  - unfold Engine.matchAttempt.
    destruct (Engine.jobs s !! j') as [J|] eqn:HJ; [|exact Hsame].
    destruct (Engine.status J) eqn:Hst; try exact Hsame.
    destruct (Engine.held J); [exact Hsame|].
    destruct (Engine.match_ _ _ _ _) as [tr|].
    + destruct (Engine.compareAndSet _ _ _); [|exact Hsame]. cbn [Engine.jobs].
      destruct (decide (j' = j)) as [->|Hne].
      * rewrite lookup_insert_eq. rewrite HJ in Ha. cbn in *.
        exists Engine.requested. split; [reflexivity|left; congruence].
      * now rewrite lookup_insert_ne.
    + apply Hset. intros ->. rewrite HJ in Ha. injection Ha as <-.
      now rewrite Hst.
  - destruct (Engine.jobs s !! j') as [[r [] [t|]]|] eqn:HJ; try exact Hsame.
    apply Hset. intros ->. rewrite HJ in Ha. now injection Ha as <-.
  - destruct (Engine.jobs s !! j') as [[r [] h]|] eqn:HJ; try exact Hsame.
    apply Hset. intros ->. rewrite HJ in Ha. now injection Ha as <-.
  - destruct (Engine.jobs s !! j') as [[r [] h]|] eqn:HJ; try exact Hsame.
    rewrite jobs_release.
    apply Hset. intros ->. rewrite HJ in Ha. now injection Ha as <-.
  - destruct (Engine.jobs s !! j') as [[r st h]|] eqn:HJ; [|exact Hsame].
    cbn [Engine.status]. destruct (Engine.terminal st) eqn:Hterm; [exact Hsame|].
    rewrite jobs_release.
    apply Hset. intros ->. rewrite HJ in Ha. injection Ha as <-.
    now destruct st.
  - destruct (Engine.jobs s !! j') as [[r [] h]|] eqn:HJ; try exact Hsame.
    rewrite jobs_release.
    apply Hset. intros ->. rewrite HJ in Ha. now injection Ha as <-.
Qed.

Lemma terminal_no_edge a b :
  Engine.terminal a = true -> Engine.edge a b = false.
Proof. destruct a, b; simpl; congruence. Qed.

End MatchingFacts.

Lemma runOps_terminal_kept
  (ttl : Z) (score : FarmerRequest.t -> Engine.Transporter -> Z)
  (ops : list Engine.op) (s : Engine.Store) (j : nat) (a : Engine.Status) :
  Engine.status <$> Engine.jobs s !! j = Some a ->
  Engine.terminal a = true ->
  Engine.status <$> Engine.jobs (Engine.runOps ttl score ops s) !! j = Some a.
Proof.
  intros Ha Hterm. unfold Engine.runOps. revert s Ha.
  induction ops as [|o ops IH]; intros s Ha; simpl; [exact Ha|].
  apply IH.
  destruct (exec_follows_lifecycle ttl score o s j a Ha) as (b & Hb & [->|Hedge]);
    [exact Hb|].
  rewrite (terminal_no_edge a b Hterm) in Hedge. discriminate.
Qed.

Lemma edge_listed (a b : Engine.Status) :
  Engine.edge a b = true <->
  In (a, b) (Wire.listedEdges ++ [(Engine.requested, Engine.cancelled)])%list.
Proof.
  destruct a, b; simpl; split; intros H; try discriminate H; try reflexivity;
    auto 10;
    repeat (destruct H as [H|H]; [discriminate H|]); contradiction.
Qed.

(** C5 as stated fails twice.  On the admin client the first job of the
    table is [completed], which is none of the six lifecycle states.  And
    in the lifecycle of section 4.3 a job cancelled while still
    [requested] goes from [requested] to [cancelled], which is none of
    the edges the claim lists. *)
Lemma status_set_and_edge_counterexample :
  ~ Forall (fun j => In (AdminJobs.status j) Wire.lifecycleNames) AdminJobs.jobs /\
  (Engine.status <$>
     Engine.jobs (Engine.runOps 3600 Samples.flatScore
                    [Engine.Submit 1 Samples.request] Engine.emptyStore) !! 1%nat
     = Some Engine.requested /\
   Engine.status <$>
     Engine.jobs (Engine.runOps 3600 Samples.flatScore
                    Samples.cancelledEarly Engine.emptyStore) !! 1%nat
     = Some Engine.cancelled /\
   ~ In (Engine.requested, Engine.cancelled) Wire.listedEdges).
Proof.
  split; [|split; [|split]].
  - intros H. inversion H as [|j js Hj _]. simpl in Hj.
    repeat (destruct Hj as [Hj|Hj]; [discriminate Hj|]). contradiction.
  - vm_compute. reflexivity.
  - vm_compute. reflexivity.
  - simpl. intros H.
    repeat (destruct H as [H|H]; [discriminate H|]). contradiction.
Qed.

(** C5, as the code and the specified lifecycle have it.  Every job of
    the admin client is [completed], [in-progress] or [pending]; these
    three are the statuses [getStatusBadge] has a style for, and on each
    of the six lifecycle names of the specification it throws; the mobile
    client keeps the status of a job as the string it was sent, whatever
    it is.  In the lifecycle of section 4.3, every status is one of
    [requested], [matched], [in_transit], [delivered], [cancelled],
    [failed]; every operation leaves the status of a job alone or moves
    it along an edge, the edges being the six listed ones and
    [requested] to [cancelled] (cancellation is open to every state that
    is not terminal); and a job in a terminal state keeps its status
    through every run of operations. *)
Theorem client_statuses :
  Forall (fun j => In (AdminJobs.status j) ["completed"; "in-progress"; "pending"])
    AdminJobs.jobs /\
  (forall s, (exists c, AdminJobs.getStatusBadge s = AdminJobs.Badge c) <->
             In s ["completed"; "in-progress"; "pending"]) /\
  Forall (fun s => AdminJobs.getStatusBadge s = AdminJobs.ThrowsTypeError)
    Wire.lifecycleNames /\
  (forall j : TransportJob.t,
     exists j', TransportJob.fromJson (TransportJob.toJson j) = Ok j' /\
                TransportJob.status j' = TransportJob.status j) /\
  (forall s : Engine.Status, In (Engine.statusName s) Wire.lifecycleNames) /\
  (forall a b : Engine.Status,
     Engine.edge a b = true <->
     In (a, b) (Wire.listedEdges ++ [(Engine.requested, Engine.cancelled)])%list) /\
  (forall (ttl : Z) (score : FarmerRequest.t -> Engine.Transporter -> Z)
          (o : Engine.op) (s : Engine.Store) (j : nat) (a : Engine.Status),
     Engine.status <$> Engine.jobs s !! j = Some a ->
     exists b,
       Engine.status <$> Engine.jobs (Engine.exec ttl score o s) !! j = Some b /\
       (b = a \/ Engine.edge a b = true)) /\
  (forall (ttl : Z) (score : FarmerRequest.t -> Engine.Transporter -> Z)
          (ops : list Engine.op) (s : Engine.Store) (j : nat) (a : Engine.Status),
     Engine.status <$> Engine.jobs s !! j = Some a ->
     Engine.terminal a = true ->
     Engine.status <$> Engine.jobs (Engine.runOps ttl score ops s) !! j = Some a).
Proof.
  split; [|split; [|split; [|split; [|split; [|split; [|split]]]]]].
  - unfold AdminJobs.jobs.
    repeat (apply List.Forall_cons; [simpl; auto 6|]). apply List.Forall_nil.
  - apply getStatusBadge_configured.
  - repeat constructor.
  - intros j. exists j. split; [apply TransportJob_fromJson_toJson|reflexivity].
  - intros []; simpl; auto 10.
  - apply edge_listed.
  - intros ttl score. apply exec_follows_lifecycle.
  - apply runOps_terminal_kept.
Qed.

Lemma client_statuses_witness :
  Engine.status <$>
    Engine.jobs
      (Engine.runOps 3600 Samples.flatScore
         [Engine.Cancel 2; Engine.Match 2 [Samples.onlyTruck]; Engine.Commit 2]
         (Engine.runOps 3600 Samples.flatScore Samples.race Engine.emptyStore))
    !! 2%nat
  = Some Engine.failed.
Proof.
  destruct client_statuses as (_ & _ & _ & _ & _ & _ & _ & Hkept).
  apply Hkept; vm_compute; reflexivity.
Defined.


(** C3. Whatever the pool, the request, the staleness bound and the
    scoring, the transporter [match] returns comes from the pool, is
    available and has [capacity_kg >= quantity_kg]; its capacity is never
    below the requested quantity. *)
Theorem match_never_undersized
  (ttl : Z) (score : FarmerRequest.t -> Engine.Transporter -> Z)
  (r : FarmerRequest.t) (pool : list Engine.Transporter) (t : Engine.Transporter) :
  Engine.match_ ttl score r pool = Some t ->
  In t pool /\
  TransporterProfile.availability (Engine.profile t) = true /\
  ge (TransporterProfile.capacityKg (Engine.profile t)) (FarmerRequest.quantityKg r) = true /\
  lt (TransporterProfile.capacityKg (Engine.profile t)) (FarmerRequest.quantityKg r) = false.
Proof.
  intros H. apply match_eligible in H as [Hin He].
  unfold Engine.eligible in He. apply andb_true_iff in He as [He _].
  apply andb_true_iff in He as [Ha Hc].
  repeat split; try assumption. apply ge_not_lt, Hc.
Qed.

Lemma match_never_undersized_witness :
  In Samples.onlyTruck [Samples.onlyTruck] /\
  TransporterProfile.availability (Engine.profile Samples.onlyTruck) = true /\
  ge (TransporterProfile.capacityKg (Engine.profile Samples.onlyTruck))
     (FarmerRequest.quantityKg Samples.request) = true /\
  lt (TransporterProfile.capacityKg (Engine.profile Samples.onlyTruck))
     (FarmerRequest.quantityKg Samples.request) = false.
Proof.
  apply (match_never_undersized 3600 Samples.flatScore Samples.request
           [Samples.onlyTruck] Samples.onlyTruck).
  reflexivity.
Defined.

(** C9. Under every interleaving of the atomic engine operations, two
    jobs that hold a reservation on the same transporter are one and the
    same job: a transporter is never reserved by two jobs at once, be the
    reservations tentative or committed. *)
Theorem reservation_exclusive
  (ttl : Z) (score : FarmerRequest.t -> Engine.Transporter -> Z)
  (ops : list Engine.op) (j1 j2 : nat) (J1 J2 : Engine.Job) (t : nat) :
  Engine.jobs (Engine.runOps ttl score ops Engine.emptyStore) !! j1 = Some J1 ->
  Engine.jobs (Engine.runOps ttl score ops Engine.emptyStore) !! j2 = Some J2 ->
  Engine.held J1 = Some t ->
  Engine.held J2 = Some t ->
  j1 = j2.
Proof.
  intros H1 H2 Ht1 Ht2.
  pose proof (consistent_runOps ttl score ops _ consistent_emptyStore) as Hc.
  pose proof (Hc j1 J1 t H1 Ht1) as Ha.
  pose proof (Hc j2 J2 t H2 Ht2) as Hb.
  congruence.
Qed.

Lemma race_has_one_winner :
  Engine.jobs (Engine.runOps 3600 Samples.flatScore Samples.race Engine.emptyStore) !! 1%nat
    = Some (Engine.MkJob Samples.request Engine.matched (Some 1%nat)) /\
  Engine.jobs (Engine.runOps 3600 Samples.flatScore Samples.race Engine.emptyStore) !! 2%nat
    = Some (Engine.MkJob Samples.maizeRequest Engine.failed None).
Proof. split; vm_compute; reflexivity. Qed.

Lemma reservation_exclusive_witness :
  Engine.jobs (Engine.runOps 3600 Samples.flatScore Samples.race Engine.emptyStore) !! 1%nat
    = Some (Engine.MkJob Samples.request Engine.matched (Some 1%nat)) /\
  1%nat = 1%nat.
Proof.
  split; [vm_compute; reflexivity|].
  apply (reservation_exclusive 3600 Samples.flatScore Samples.race 1 1
           (Engine.MkJob Samples.request Engine.matched (Some 1%nat))
           (Engine.MkJob Samples.request Engine.matched (Some 1%nat)) 1);
    vm_compute; reflexivity.
Defined.

(** ** The farmer screen *)

Lemma submitted_app (out1 out2 : list FarmerScreen.effect) :
  FarmerScreen.submitted (out1 ++ out2)%list =
  (FarmerScreen.submitted out1 ++ FarmerScreen.submitted out2)%list.
Proof. unfold FarmerScreen.submitted. apply flat_map_app. Qed.

Lemma submitted_sent_then_snack sent s :
  FarmerScreen.submitted (map FarmerScreen.Sent sent ++ [FarmerScreen.SnackBar s])%list
  = sent.
Proof.
  rewrite submitted_app. simpl. rewrite app_nil_r.
  induction sent as [|p sent IH]; simpl; [reflexivity|]. now rewrite IH.
Qed.

Lemma String_eqb_empty (s : string) : String.eqb s "" = false -> s <> "".
Proof. intros H ->. discriminate H. Qed.

(** What a valid form holds. *)
Lemma validate_true (st : FarmerScreen.State) :
  FarmerScreen.validate st = true ->
  exists crop quantity,
    FarmerScreen._selectedCrop st = Some crop /\ crop <> "" /\
    FarmerScreen._quantityController st <> "" /\
    tryParse (FarmerScreen._quantityController st) = Some quantity /\
    FarmerScreen._locationController st <> "" /\
    FarmerScreen._marketController st <> "".
Proof.
  unfold FarmerScreen.validate. rewrite !andb_true_iff.
  intros (((Hc & Hq) & Hl) & Hm).
  unfold FarmerScreen.cropValidator in Hc.
  destruct (FarmerScreen._selectedCrop st) as [crop|]; [|discriminate].
  destruct (String.eqb crop "") eqn:Hcrop; [discriminate|].
  unfold FarmerScreen.quantityValidator in Hq.
  destruct (String.eqb (FarmerScreen._quantityController st) "") eqn:Hqe;
    [discriminate|].
  destruct (tryParse (FarmerScreen._quantityController st)) as [quantity|];
    [|discriminate].
  unfold FarmerScreen.locationValidator in Hl.
  destruct (String.eqb (FarmerScreen._locationController st) "") eqn:Hle;
    [discriminate|].
  unfold FarmerScreen.marketValidator in Hm.
  destruct (String.eqb (FarmerScreen._marketController st) "") eqn:Hme;
    [discriminate|].
  exists crop, quantity. auto 10 using String_eqb_empty.
Qed.

(** What [matchTransport] sends: nothing when the body does not encode,
    the body to the match-transport URL otherwise. *)
Lemma matchTransport_sent (net : ApiService.backend) (request : Map) :
  fst (ApiService.matchTransport net request) =
  if encodable (DMap request)
  then [ApiService.Post (ApiService.baseUrl ++ "/mcp/match-transport") (DMap request)]
  else [].
Proof.
  unfold ApiService.matchTransport, jsonEncode.
  destruct (encodable (DMap request)); reflexivity.
Qed.

Lemma tryMatch_sent (net : ApiService.backend) (st : FarmerScreen.State) quantity :
  tryParse (FarmerScreen._quantityController st) = Some quantity ->
  fst (FarmerScreen.tryMatch net st) =
  if isFinite quantity
  then [ApiService.Post (ApiService.baseUrl ++ "/mcp/match-transport")
          (DMap (FarmerScreen.requestOf st quantity))]
  else [].
Proof.
  intros Hq. unfold FarmerScreen.tryMatch, parse. rewrite Hq.
  pose proof (matchTransport_sent net (FarmerScreen.requestOf st quantity)) as H.
  destruct (ApiService.matchTransport net (FarmerScreen.requestOf st quantity))
    as [sent answer].
  cbn [fst] in *. rewrite H.
  cbn [encodable FarmerScreen.requestOf forallb snd].
  destruct (FarmerScreen._selectedCrop st); cbn [of_opt encodable];
    rewrite ?andb_true_r; reflexivity.
Qed.

Lemma submitRequest_submitted (net : ApiService.backend) (st : FarmerScreen.State) :
  FarmerScreen.submitted (snd (FarmerScreen._submitRequest net st)) =
  if FarmerScreen.validate st then fst (FarmerScreen.tryMatch net st) else [].
Proof.
  unfold FarmerScreen._submitRequest.
  destruct (FarmerScreen.validate st); [|reflexivity].
  destruct (FarmerScreen.tryMatch net st) as [sent [job|e]]; cbn [fst snd];
    apply submitted_sent_then_snack.
Qed.









(** What the [try] block of [_submitRequest] comes to, given the number
    in the quantity field. *)
Lemma tryMatch_outcome (net : ApiService.backend) (st : FarmerScreen.State) quantity :
  tryParse (FarmerScreen._quantityController st) = Some quantity ->
  let u := ApiService.baseUrl ++ "/mcp/match-transport" in
  let body := DMap (FarmerScreen.requestOf st quantity) in
  if isFinite quantity
  then exists r,
         FarmerScreen.tryMatch net st = ([ApiService.Post u body], r) /\
         match Wire.jobOfReply (net u body) with
         | Some job => r = Ok job
         | None => exists e, r = Throw e
         end
  else exists e, FarmerScreen.tryMatch net st = ([], Throw e).
Proof.
  intros Hq u body. unfold FarmerScreen.tryMatch, parse. rewrite Hq.
  unfold ApiService.matchTransport, jsonEncode.
  assert (encodable (DMap (FarmerScreen.requestOf st quantity)) = isFinite quantity)
    as ->.
  { cbn [encodable FarmerScreen.requestOf forallb snd].
    destruct (FarmerScreen._selectedCrop st); cbn [of_opt encodable];
      rewrite ?andb_true_r; reflexivity. }
  destruct (isFinite quantity); [|eauto].
  fold u. fold body. eexists. split; [reflexivity|].
  unfold ApiService.post, Wire.jobOfReply.
  destruct (net u body) as [|code [decoded|]]; cbn [bind ApiService.wrapNetworkError fst snd];
    eauto.
  - destruct (code =? 200); cbn [bind ApiService.wrapNetworkError ApiService.jsonDecode];
      [|destruct decoded; eauto].
    destruct decoded as [| | | | | |m];
      cbn [bind as_Map ApiService.wrapNetworkError]; eauto.
    destruct (index m "success") as [|[]| | | | |];
      cbn [bind as_bool ApiService.wrapNetworkError]; eauto.
    destruct (index m "transport_job") as [| | | | | |tj];
      cbn [bind as_Map ApiService.wrapNetworkError]; eauto.
    destruct (TransportJob.fromJson tj); eauto.
  - destruct (code =? 200); cbn [bind ApiService.wrapNetworkError ApiService.jsonDecode];
      eauto.
Qed.



(** * Further properties of the client code *)

(** ** The JSON models *)

Lemma bind_Throw {A B} (r : result A) (k : A -> result B) (e : exn) :
  bind r k = Throw e <-> r = Throw e \/ exists a, r = Ok a /\ k a = Throw e.
Proof.
  destruct r as [a|e0]; simpl; split.
  - eauto.
  - intros [[=]|(a' & [= <-] & H)]. exact H.
  - intros [= <-]. auto.
  - intros [[= <-]|(a' & [=] & _)]. reflexivity.
Qed.

Lemma as_String_throws v e : as_String v = Throw e -> e = TypeError.
Proof. destruct v; simpl; congruence. Qed.

Lemma as_String_opt_throws v e : as_String_opt v = Throw e -> e = TypeError.
Proof. destruct v; simpl; congruence. Qed.

Lemma as_int_opt_throws v e : as_int_opt v = Throw e -> e = TypeError.
Proof. destruct v; simpl; congruence. Qed.

Lemma as_bool_throws v e : as_bool v = Throw e -> e = TypeError.
Proof. destruct v; simpl; congruence. Qed.

Lemma as_Map_throws v e : as_Map v = Throw e -> e = TypeError.
Proof. destruct v; simpl; congruence. Qed.

Lemma as_Map_opt_throws v e : as_Map_opt v = Throw e -> e = TypeError.
Proof. destruct v; simpl; congruence. Qed.

Lemma toDouble_throws v e : toDouble v = Throw e -> e = NoSuchMethodError.
Proof. destruct v; simpl; congruence. Qed.

Lemma toDouble_opt_throws v e : toDouble_opt v = Throw e -> e = NoSuchMethodError.
Proof. destruct v; simpl; congruence. Qed.

(** One step through a chain of reads that ended in an exception: either
    this read threw, or it went through and a later one threw. *)
Ltac next_read H :=
  apply bind_Throw in H as [H|(? & _ & H)].

Lemma FarmerRequest_fromJson_throws m e :
  FarmerRequest.fromJson m = Throw e -> e = TypeError \/ e = NoSuchMethodError.
Proof.
  unfold FarmerRequest.fromJson. intros H.
  next_read H; [left; eapply as_String_throws, H|].
  next_read H; [right; eapply toDouble_throws, H|].
  next_read H; [left; eapply as_String_throws, H|].
  next_read H; [left; eapply as_String_throws, H|].
  next_read H; [left; eapply as_String_opt_throws, H|].
  discriminate H.
Qed.

Lemma TransporterProfile_fromJson_throws m e :
  TransporterProfile.fromJson m = Throw e -> e = TypeError \/ e = NoSuchMethodError.
Proof.
  unfold TransporterProfile.fromJson. intros H.
  next_read H; [left; eapply as_String_throws, H|].
  next_read H; [right; eapply toDouble_throws, H|].
  next_read H; [left; eapply as_String_throws, H|].
  next_read H; [left; eapply as_bool_throws, H|].
  next_read H; [left; eapply as_String_throws, H|].
  discriminate H.
Qed.

(** X1. A [FarmerRequest] written with [toJson] has exactly the keys
    [crop_type], [quantity_kg], [location], [destination_market],
    [preferred_delivery_time], and [fromJson] reads the request back from
    it unchanged. *)
Theorem FarmerRequest_wire_roundtrip (r : FarmerRequest.t) :
  FarmerRequest.fromJson (FarmerRequest.toJson r) = Ok r /\
  keys (FarmerRequest.toJson r) =
    [ "crop_type"; "quantity_kg"; "location"; "destination_market";
      "preferred_delivery_time" ].
Proof. split; [apply FarmerRequest_roundtrip|reflexivity]. Qed.

(** X2. [FarmerRequest.fromJson] returns a request exactly when each field
    can be read from its key: the three texts as strings, the quantity as
    a number (an integer is converted), the delivery time as a string or
    [null]; nothing else in the map matters. *)
Theorem FarmerRequest_fromJson_reads (m : Map) (r : FarmerRequest.t) :
  FarmerRequest.fromJson m = Ok r <->
  as_String (index m "crop_type") = Ok (FarmerRequest.cropType r) /\
  toDouble (index m "quantity_kg") = Ok (FarmerRequest.quantityKg r) /\
  as_String (index m "location") = Ok (FarmerRequest.location r) /\
  as_String (index m "destination_market") = Ok (FarmerRequest.destinationMarket r) /\
  as_String_opt (index m "preferred_delivery_time") =
    Ok (FarmerRequest.preferredDeliveryTime r).
Proof.
  unfold FarmerRequest.fromJson. split.
  - intros H.
    apply bind_Ok in H as (c & H1 & H).
    apply bind_Ok in H as (q & H2 & H).
    apply bind_Ok in H as (l & H3 & H).
    apply bind_Ok in H as (d & H4 & H).
    apply bind_Ok in H as (p & H5 & [= <-]).
    auto.
  - intros (H1 & H2 & H3 & H4 & H5).
    rewrite H1, H2, H3, H4, H5. destruct r; reflexivity.
Qed.

(** X3. The fields of a [FarmerRequest] are read in order and the first
    bad one decides the exception: a [crop_type] that is missing or not a
    string gives a [TypeError]; with a good [crop_type], a [quantity_kg]
    that is missing or not a number gives a [NoSuchMethodError]; no other
    kind of exception comes out of [fromJson]. *)
Theorem FarmerRequest_fromJson_errors (m : Map) :
  (Wire.isString (index m "crop_type") = false ->
     FarmerRequest.fromJson m = Throw TypeError) /\
  (Wire.isString (index m "crop_type") = true ->
   Wire.isNum (index m "quantity_kg") = false ->
     FarmerRequest.fromJson m = Throw NoSuchMethodError) /\
  (forall e, FarmerRequest.fromJson m = Throw e ->
     e = TypeError \/ e = NoSuchMethodError).
Proof.
  split; [|split].
  - unfold FarmerRequest.fromJson.
    destruct (index m "crop_type"); simpl; congruence.
  - unfold FarmerRequest.fromJson.
    destruct (index m "crop_type"); simpl; try congruence. intros _.
    destruct (index m "quantity_kg"); simpl; congruence.
  - apply FarmerRequest_fromJson_throws.
Qed.

Lemma FarmerRequest_fromJson_errors_witness :
  FarmerRequest.fromJson
    [ ("crop_type", DString "maize"); ("location", DString "Masvingo") ] =
  Throw NoSuchMethodError.
Proof.
  apply (proj1 (proj2 (FarmerRequest_fromJson_errors
           [ ("crop_type", DString "maize"); ("location", DString "Masvingo") ])));
    reflexivity.
Defined.

(** X4. [TransportJob.fromJson] returns a job exactly for the wire objects
    whose [id] and [created_at] are absent, [null] or of the right type,
    whose [farmer_request] is a readable request, whose [status] is a
    string, and whose optional fields are each absent, [null] or of the
    right shape. *)
Theorem TransportJob_fromJson_accepts (w : Map) :
  (exists job, TransportJob.fromJson w = Ok job) <->
  Wire.requiredOk w = true /\ Wire.optionalOk w = true.
Proof.
  rewrite <- TransportJob_accepts. rewrite andb_true_iff. reflexivity.
Qed.

(** X5. Whatever map it is given, [TransportJob.fromJson] either returns a
    job or throws a [TypeError] or a [NoSuchMethodError]; and an optional
    field that is present with the wrong shape is not skipped: when [id]
    and [farmer_request] are in order, a [transporter] that is not a map
    makes the whole read throw a [TypeError]. *)
Theorem TransportJob_fromJson_errors (w : Map) :
  (forall e, TransportJob.fromJson w = Throw e ->
     e = TypeError \/ e = NoSuchMethodError) /\
  (Wire.nullOr Wire.isInt (index w "id") = true ->
   Wire.farmerRequestOk (index w "farmer_request") = true ->
   Wire.nullOr Wire.isMap (index w "transporter") = false ->
   TransportJob.fromJson w = Throw TypeError).
Proof.
  split.
  - rewrite TransportJob_fromJson_unfold. intros e H.
    next_read H; [left; eapply as_int_opt_throws, H|].
    next_read H; [left; eapply as_Map_throws, H|].
    next_read H; [eapply FarmerRequest_fromJson_throws, H|].
    next_read H.
    { unfold TransportJob.readTransporter in H.
      destruct (index w "transporter") as [| | | | | |tp]; simpl in H;
        try (left; congruence).
      next_read H; [eapply TransporterProfile_fromJson_throws, H|discriminate H]. }
    next_read H; [left; eapply as_String_throws, H|].
    next_read H; [left; eapply as_String_opt_throws, H|].
    next_read H; [left; eapply as_Map_opt_throws, H|].
    next_read H; [right; eapply toDouble_opt_throws, H|].
    next_read H; [left; eapply as_String_opt_throws, H|].
    discriminate H.
  - intros Hid Hfr Htr. rewrite TransportJob_fromJson_unfold.
    apply nullOr_isInt_cast in Hid as [i ->].
    apply FarmerRequest_accepts in Hfr as (m & r & -> & Hr).
    cbn [bind as_Map]. rewrite Hr. cbn [bind].
    destruct (index w "transporter"); simpl in *; congruence.
Qed.

Lemma TransportJob_fromJson_errors_witness :
  TransportJob.fromJson (("transporter", DString "truck") :: Samples.pendingWire) =
  Throw TypeError.
Proof.
  apply (proj2 (TransportJob_fromJson_errors
                  (("transporter", DString "truck") :: Samples.pendingWire)));
    reflexivity.
Defined.

(** ** The API calls *)

(** X6. [matchTransport] returns a map exactly when the request could be
    encoded and the backend answered HTTP 200 with a JSON object, which is
    then the map returned; everything else, the exception for another
    status code included, reaches the caller wrapped as a network error. *)
Theorem matchTransport_result (net : ApiService.backend) (request : Map) :
  (forall m,
     snd (ApiService.matchTransport net request) = Ok m <->
     encodable (DMap request) = true /\
     net (ApiService.baseUrl ++ "/mcp/match-transport") (DMap request) =
       ApiService.Response 200 (Some (DMap m))) /\
  (forall e, snd (ApiService.matchTransport net request) = Throw e ->
     exists cause, e = NetworkError cause) /\
  (forall code body,
     encodable (DMap request) = true ->
     net (ApiService.baseUrl ++ "/mcp/match-transport") (DMap request) =
       ApiService.Response code body ->
     code <> 200 ->
     snd (ApiService.matchTransport net request) =
       Throw (NetworkError (FailedToMatchTransport code))).
Proof.
  unfold ApiService.matchTransport, jsonEncode, ApiService.post.
  set (u := ApiService.baseUrl ++ "/mcp/match-transport").
  destruct (encodable (DMap request)); cbn [fst snd].
  - destruct (net u (DMap request)) as [|code body] eqn:Hnet;
      cbn [bind ApiService.wrapNetworkError fst snd].
    + split; [|split].
      * intros m. split; [discriminate|]. intros [_ [=]].
      * intros e [= <-]. eauto.
      * intros code body _ [=].
    + destruct (Z.eqb_spec code 200) as [->|Hcode].
      * destruct body as [[| | | | | |m0]|];
          cbn [bind ApiService.wrapNetworkError ApiService.jsonDecode as_Map];
          (split; [|split]);
          try (intros m; split; [discriminate|intros [_ [=]]]);
          try (intros e [= <-]; eauto);
          try (intros code body _ [= <- <-] Hc; now contradiction Hc).
        intros m. split; [intros [= <-]; auto|]. intros [_ [= <-]]. reflexivity.
      * cbn [bind ApiService.wrapNetworkError]. split; [|split].
        -- intros m. split; [discriminate|]. intros [_ [= Hc _]]. contradiction.
        -- intros e [= <-]. eauto.
        -- intros code' body' _ [= <- <-] _. reflexivity.
  - split; [|split].
    + intros m. split; [discriminate|]. intros [[=] _].
    + intros e [= <-]. eauto.
    + intros code body [=].
Qed.

Lemma matchTransport_result_witness :
  snd (ApiService.matchTransport
         (fun _ _ => ApiService.Response 503 None)
         (FarmerScreen.requestOf Samples.filled (int_toDouble 500))) =
  Throw (NetworkError (FailedToMatchTransport 503)).
Proof.
  apply (proj2 (proj2 (matchTransport_result
           (fun _ _ => ApiService.Response 503 None)
           (FarmerScreen.requestOf Samples.filled (int_toDouble 500))))
         503 None); [reflexivity|reflexivity|discriminate].
Defined.

(** X7. [optimizeRoute] always posts exactly one request, to
    [/mcp/optimize-route], with the two locations under [start_location]
    and [end_location], whatever the two strings are; it returns a map
    exactly when the backend answers HTTP 200 with a JSON object, and
    every exception it throws is a network error. *)
Theorem optimizeRoute_result (net : ApiService.backend) (start end_ : string) :
  let u := ApiService.baseUrl ++ "/mcp/optimize-route" in
  let body := DMap [ ("start_location", DString start);
                     ("end_location", DString end_) ] in
  fst (ApiService.optimizeRoute net start end_) = [ApiService.Post u body] /\
  (forall m,
     snd (ApiService.optimizeRoute net start end_) = ApiService.Returned m <->
     net u body = ApiService.Response 200 (Some (DMap m))) /\
  (forall t,
     snd (ApiService.optimizeRoute net start end_) = ApiService.Thrown t ->
     exists cause, t = ApiService.NetworkErrorOf cause).
Proof.
  intros u body. unfold ApiService.optimizeRoute, jsonEncode, ApiService.post.
  cbn [encodable forallb snd andb]. fold u. fold body. cbn [fst snd].
  split; [reflexivity|].
  destruct (net u body) as [|code [[| | | | | |m0]|]];
    cbn [fst snd]; try destruct (Z.eqb_spec code 200) as [->|Hcode];
    cbn [ApiService.decoded ApiService.jsonDecode bind as_Map];
    (split; [intros m; split; [try discriminate|intros [=]; try contradiction]
            |intros t [= <-]; eauto]).
  all: try (intros [= <-]; reflexivity).
  all: try (subst; reflexivity).
Qed.

(** X8. [predictSpoilage] posts its request, to [/mcp/predict-spoilage]
    with the keys [crop_type], [estimated_duration] and [temperature],
    exactly when the temperature is a finite number; for any other
    temperature nothing is sent and the failure to encode is thrown as a
    network error.  It returns a map only for a finite temperature
    answered by HTTP 200 with a JSON object. *)
Theorem predictSpoilage_result
  (net : ApiService.backend) (cropType : string) (estimatedDuration : Z)
  (temperature : double) :
  let u := ApiService.baseUrl ++ "/mcp/predict-spoilage" in
  let body := DMap [ ("crop_type", DString cropType);
                     ("estimated_duration", DInt estimatedDuration);
                     ("temperature", DDouble temperature) ] in
  let call := ApiService.predictSpoilage net cropType estimatedDuration temperature in
  fst call = (if isFinite temperature then [ApiService.Post u body] else []) /\
  (isFinite temperature = false ->
     snd call = ApiService.Thrown
                  (ApiService.NetworkErrorOf
                     (ApiService.Raised JsonUnsupportedObjectError))) /\
  (forall m,
     snd call = ApiService.Returned m <->
     isFinite temperature = true /\
     net u body = ApiService.Response 200 (Some (DMap m))).
Proof.
  intros u body call. subst call.
  unfold ApiService.predictSpoilage, jsonEncode, ApiService.post.
  cbn [encodable forallb snd andb]. rewrite andb_true_r. fold u. fold body.
  destruct (isFinite temperature); cbn [fst snd].
  - split; [reflexivity|]. split; [discriminate|].
    destruct (net u body) as [|code [[| | | | | |m0]|]];
      cbn [fst snd]; try destruct (Z.eqb_spec code 200) as [->|Hcode];
      cbn [ApiService.decoded ApiService.jsonDecode bind as_Map];
      intros m; (split; [try discriminate|intros [_ [=]]; try contradiction]).
    all: try (intros [= <-]; auto).
    all: try (subst; reflexivity).
  - split; [reflexivity|]. split; [reflexivity|].
    intros m. split; [discriminate|]. intros [[=] _].
Qed.

Lemma predictSpoilage_result_witness :
  snd (ApiService.predictSpoilage Samples.matching "tomatoes" 6 S754_nan) =
  ApiService.Thrown
    (ApiService.NetworkErrorOf (ApiService.Raised JsonUnsupportedObjectError)).
Proof.
  apply (proj1 (proj2 (predictSpoilage_result Samples.matching "tomatoes" 6 S754_nan))).
  reflexivity.
Defined.

(** ** The farmer screen, further *)

(** X9. The request form validates exactly when a crop is selected and not
    empty, the quantity text is not empty and reads as a number, and the
    pickup location and the destination market are not empty. *)
Theorem validate_characterised (st : FarmerScreen.State) :
  FarmerScreen.validate st = true <->
  (exists crop, FarmerScreen._selectedCrop st = Some crop /\ crop <> "") /\
  FarmerScreen._quantityController st <> "" /\
  (exists quantity, tryParse (FarmerScreen._quantityController st) = Some quantity) /\
  FarmerScreen._locationController st <> "" /\
  FarmerScreen._marketController st <> "".
Proof.
  split.
  - intros H. apply validate_true in H as (crop & q & Hc & Hne & Hq & Hp & Hl & Hm).
    eauto 10.
  - intros ((crop & Hc & Hne) & Hq & (q & Hp) & Hl & Hm).
    unfold FarmerScreen.validate, FarmerScreen.cropValidator,
      FarmerScreen.quantityValidator, FarmerScreen.locationValidator,
      FarmerScreen.marketValidator.
    rewrite Hc, Hp.
    apply String.eqb_neq in Hne, Hq, Hl, Hm. rewrite Hne, Hq, Hl, Hm. reflexivity.
Qed.

Lemma step_not_loading st ev :
  FarmerScreen._isLoading st = false ->
  FarmerScreen._isLoading (fst (FarmerScreen.step st ev)) = false.
Proof.
  intros Hl. destruct ev as [item|text|text|text|net|]; cbn [FarmerScreen.step].
  - destruct (nth_error FarmerScreen._cropTypes item); exact Hl.
  - exact Hl.
  - exact Hl.
  - exact Hl.
  - unfold FarmerScreen._submitRequest.
    destruct (FarmerScreen.validate st); [|exact Hl].
    destruct (FarmerScreen.tryMatch net st) as [sent [job|e]]; reflexivity.
  - destruct (FarmerScreen._currentJob st); exact Hl.
Qed.

(** X10. Whatever the farmer does and whatever the backend answers, the
    screen is never left loading: after every run of events [_isLoading]
    is false again, so "Find Transport" can be pressed again. *)
Theorem never_left_loading (evs : list FarmerScreen.event) :
  FarmerScreen._isLoading (fst (FarmerScreen.run FarmerScreen.initState evs)) = false.
Proof.
  assert (forall st, FarmerScreen._isLoading st = false ->
                     FarmerScreen._isLoading (fst (FarmerScreen.run st evs)) = false)
    as H; [|apply H; reflexivity].
  induction evs as [|ev evs IH]; intros st Hl; cbn [FarmerScreen.run]; [exact Hl|].
  pose proof (step_not_loading st ev Hl) as H1.
  destruct (FarmerScreen.step st ev) as [st1 out1].
  specialize (IH st1 H1).
  destruct (FarmerScreen.run st1 evs) as [st2 out2]. exact IH.
Qed.

(** X11. [_submitRequest] never touches what the farmer entered: the
    selected crop and the three texts are the same afterwards, on success
    and on failure alike, so a form that was valid is still valid and the
    request can be sent again as it is. *)
Theorem submitRequest_keeps_form (net : ApiService.backend) (st : FarmerScreen.State) :
  let st1 := fst (FarmerScreen._submitRequest net st) in
  FarmerScreen._selectedCrop st1 = FarmerScreen._selectedCrop st /\
  FarmerScreen._quantityController st1 = FarmerScreen._quantityController st /\
  FarmerScreen._locationController st1 = FarmerScreen._locationController st /\
  FarmerScreen._marketController st1 = FarmerScreen._marketController st /\
  FarmerScreen.validate st1 = FarmerScreen.validate st.
Proof.
  unfold FarmerScreen._submitRequest.
  destruct (FarmerScreen.validate st) eqn:Hv; [|cbn; rewrite Hv; auto].
  destruct (FarmerScreen.tryMatch net st) as [sent [job|e]]; cbn [fst];
    repeat split; exact Hv.
Qed.

Lemma submitRequest_sends_at_most_one net st :
  (length (FarmerScreen.submitted (snd (FarmerScreen._submitRequest net st))) <= 1)%nat.
Proof.
  rewrite submitRequest_submitted.
  destruct (FarmerScreen.validate st) eqn:Hv; [|simpl; lia].
  apply validate_true in Hv as (crop & q & _ & _ & _ & Hp & _ & _).
  rewrite (tryMatch_sent net st q Hp). destruct (isFinite q); simpl; lia.
Qed.

(** X12. The screen sends at most one request per press of "Find
    Transport": after any run of events, the number of requests sent is
    at most the number of presses. *)
Theorem one_request_per_press (evs : list FarmerScreen.event) :
  (length (FarmerScreen.submitted
             (snd (FarmerScreen.run FarmerScreen.initState evs)))
   <= FarmerScreen.presses evs)%nat.
Proof.
  generalize FarmerScreen.initState as st.
  induction evs as [|ev evs IH]; intros st; cbn [FarmerScreen.run]; [simpl; lia|].
  assert ((length (FarmerScreen.submitted (snd (FarmerScreen.step st ev)))
           <= FarmerScreen.presses [ev])%nat) as Hstep.
  { destruct ev as [item|text|text|text|net|]; cbn [FarmerScreen.step].
    - destruct (nth_error FarmerScreen._cropTypes item); simpl; lia.
    - simpl; lia.
    - simpl; lia.
    - simpl; lia.
    - apply submitRequest_sends_at_most_one.
    - destruct (FarmerScreen._currentJob st); simpl; lia. }
  destruct (FarmerScreen.step st ev) as [st1 out1].
  specialize (IH st1).
  destruct (FarmerScreen.run st1 evs) as [st2 out2]. cbn [fst snd] in *.
  rewrite submitted_app, List.length_app.
  change (FarmerScreen.presses (ev :: evs))
    with (FarmerScreen.presses ([ev] ++ evs)%list).
  unfold FarmerScreen.presses in *. rewrite List.filter_app, List.length_app. lia.
Qed.

Lemma submitRequest_job_origin net st job :
  FarmerScreen._currentJob (fst (FarmerScreen._submitRequest net st)) = Some job ->
  FarmerScreen._currentJob st = Some job \/
  exists p,
    In p (FarmerScreen.submitted (snd (FarmerScreen._submitRequest net st))) /\
    Wire.jobOfReply (net (ApiService.url p) (ApiService.sent p)) = Some job.
Proof.
  unfold FarmerScreen._submitRequest.
  destruct (FarmerScreen.validate st) eqn:Hv; [|auto].
  apply validate_true in Hv as (crop & q & _ & _ & _ & Hp & _ & _).
  pose proof (tryMatch_outcome net st q Hp) as Hout. cbv zeta in Hout.
  destruct (isFinite q).
  - destruct Hout as (r & -> & Hr).
    destruct r as [job'|e]; cbn [fst snd FarmerScreen._currentJob]; [|auto].
    intros [= <-]. right. eexists. split.
    + rewrite submitted_sent_then_snack. left. reflexivity.
    + cbn [ApiService.url ApiService.sent].
      destruct (Wire.jobOfReply _) as [job''|].
      * congruence.
      * destruct Hr as [e [=]].
  - destruct Hout as (e & ->). cbn [fst FarmerScreen._currentJob]. auto.
Qed.

Lemma step_job_origin st ev job :
  FarmerScreen._currentJob (fst (FarmerScreen.step st ev)) = Some job ->
  FarmerScreen._currentJob st = Some job \/
  exists net p,
    ev = FarmerScreen.FindTransportPressed net /\
    In p (FarmerScreen.submitted (snd (FarmerScreen.step st ev))) /\
    Wire.jobOfReply (net (ApiService.url p) (ApiService.sent p)) = Some job.
Proof.
  destruct ev as [item|text|text|text|net|]; cbn [FarmerScreen.step].
  - destruct (nth_error FarmerScreen._cropTypes item); auto.
  - auto.
  - auto.
  - auto.
  - intros H. apply submitRequest_job_origin in H as [H|(p & Hin & Hp)]; [auto|].
    right. exists net, p. auto.
  - destruct (FarmerScreen._currentJob st) eqn:Hj;
      cbn [fst FarmerScreen._resetForm FarmerScreen._currentJob];
      [discriminate|].
    rewrite Hj. auto.
Qed.

(** X13. The job shown as current is never made up by the screen: after
    any run of events, a current job is the [transport_job] of a
    successful answer (HTTP 200, [success] true) that some backend gave to
    a request the screen sent during that run. *)
Theorem current_job_origin (evs : list FarmerScreen.event) (job : TransportJob.t) :
  FarmerScreen._currentJob (fst (FarmerScreen.run FarmerScreen.initState evs)) = Some job ->
  exists net p,
    In (FarmerScreen.FindTransportPressed net) evs /\
    In p (FarmerScreen.submitted
            (snd (FarmerScreen.run FarmerScreen.initState evs))) /\
    Wire.jobOfReply (net (ApiService.url p) (ApiService.sent p)) = Some job.
Proof.
  assert (forall st,
            FarmerScreen._currentJob (fst (FarmerScreen.run st evs)) = Some job ->
            FarmerScreen._currentJob st = Some job \/
            exists net p,
              In (FarmerScreen.FindTransportPressed net) evs /\
              In p (FarmerScreen.submitted (snd (FarmerScreen.run st evs))) /\
              Wire.jobOfReply (net (ApiService.url p) (ApiService.sent p)) = Some job)
    as H.
  { induction evs as [|ev evs IH]; intros st; cbn [FarmerScreen.run]; [auto|].
    pose proof (step_job_origin st ev job) as Hstep.
    destruct (FarmerScreen.step st ev) as [st1 out1].
    specialize (IH st1).
    destruct (FarmerScreen.run st1 evs) as [st2 out2]. cbn [fst snd] in *.
    intros Hjob. rewrite submitted_app.
    destruct (IH Hjob) as [H1|(net & p & Hev & Hin & Hp)].
    - destruct (Hstep H1) as [H0|(net & p & -> & Hin & Hp)]; [auto|].
      right. exists net, p. repeat split; auto using in_or_app. now left.
    - right. exists net, p. repeat split; auto using in_or_app. now right. }
  intros Hjob. destruct (H _ Hjob) as [[=]|Hex]. exact Hex.
Qed.

Lemma current_job_origin_witness :
  exists net p,
    In (FarmerScreen.FindTransportPressed net) Samples.tomatoes500 /\
    In p (FarmerScreen.submitted
            (snd (FarmerScreen.run FarmerScreen.initState Samples.tomatoes500))) /\
    Wire.jobOfReply (net (ApiService.url p) (ApiService.sent p)) = Some Samples.job.
Proof.
  apply (current_job_origin Samples.tomatoes500 Samples.job).
  vm_compute. reflexivity.
Defined.

(** ** The transporter screen, further *)

Lemma removeWhere_cons {A} (test : A -> bool) (x : A) (l : list A) :
  TransporterScreen.removeWhere test (x :: l) =
  if test x then TransporterScreen.removeWhere test l
  else x :: TransporterScreen.removeWhere test l.
Proof. unfold TransporterScreen.removeWhere. simpl. destruct (test x); reflexivity. Qed.

Lemma removeWhere_unchanged {A} (test : A -> bool) (l : list A) :
  TransporterScreen.removeWhere test l = l <-> Forall (fun x => test x = false) l.
Proof.
  split.
  - intros <-. apply removeWhere_Forall.
  - induction 1 as [|x l Hx _ IH]; [reflexivity|].
    rewrite removeWhere_cons, Hx, IH. reflexivity.
Qed.


(** X14. Accepting two jobs gives the same list of available jobs in
    either order. *)
Theorem acceptJob_commutes (a b : Z) (st : TransporterScreen.State) :
  fst (TransporterScreen._acceptJob a (fst (TransporterScreen._acceptJob b st))) =
  fst (TransporterScreen._acceptJob b (fst (TransporterScreen._acceptJob a st))).
Proof.
  destruct st as [jobs loading available]. unfold TransporterScreen._acceptJob.
  cbn [fst TransporterScreen._availableJobs TransporterScreen._isLoading
       TransporterScreen._isAvailable].
  f_equal. induction jobs as [|job jobs IH]; [reflexivity|].
  rewrite !removeWhere_cons.
  destruct (TransporterScreen.hasId a job) eqn:Ha,
           (TransporterScreen.hasId b job) eqn:Hb;
    rewrite ?removeWhere_cons, ?Ha, ?Hb, IH; reflexivity.
Qed.


(** X16. A job whose [id] is missing, or is anything but a number, is
    never removed, whichever id is accepted. *)
Theorem acceptJob_keeps_unnumbered
  (jobId : Z) (st : TransporterScreen.State) (job : Map) :
  In job (TransporterScreen._availableJobs st) ->
  Wire.isNum (index job "id") = false ->
  In job (TransporterScreen._availableJobs
            (fst (TransporterScreen._acceptJob jobId st))).
Proof.
  intros Hin Hid. cbn. unfold TransporterScreen.removeWhere.
  apply List.filter_In. split; [exact Hin|].
  unfold TransporterScreen.hasId. destruct (index job "id"); simpl in *; congruence.
Qed.

Lemma acceptJob_keeps_unnumbered_witness :
  In [("crop_type", DString "beans")]
     (TransporterScreen._availableJobs
        (fst (TransporterScreen._acceptJob 1
                (TransporterScreen.Build
                   ([("crop_type", DString "beans")] :: TransporterScreen.mockJobs)
                   false true)))).
Proof.
  apply (acceptJob_keeps_unnumbered 1
           (TransporterScreen.Build
              ([("crop_type", DString "beans")] :: TransporterScreen.mockJobs)
              false true)
           [("crop_type", DString "beans")]).
  - left. reflexivity.
  - reflexivity.
Defined.

(** X17. When the accepted id belongs to one job of the list only, the one
    at position [i], accepting it removes that entry and nothing else. *)
Theorem acceptJob_removes_the_one
  (jobId : Z) (st : TransporterScreen.State) (i : nat) (job : Map) :
  TransporterScreen._availableJobs st !! i = Some job ->
  TransporterScreen.hasId jobId job = true ->
  (forall k other,
     TransporterScreen._availableJobs st !! k = Some other ->
     TransporterScreen.hasId jobId other = true -> k = i) ->
  TransporterScreen._availableJobs (fst (TransporterScreen._acceptJob jobId st)) =
  delete i (TransporterScreen._availableJobs st).
Proof.
  destruct st as [jobs loading available]. unfold TransporterScreen._acceptJob.
  cbn [fst TransporterScreen._availableJobs]. revert i.
  induction jobs as [|x jobs IH]; intros i Hi Hid Honly; [discriminate|].
  rewrite removeWhere_cons. destruct i as [|i]; simpl in Hi.
  - injection Hi as ->. rewrite Hid. simpl.
    apply removeWhere_unchanged, List.Forall_forall. intros other Hin.
    apply list_elem_of_In, list_elem_of_lookup in Hin as [k Hk].
    destruct (TransporterScreen.hasId jobId other) eqn:Ho; [|reflexivity].
    specialize (Honly (S k) other Hk Ho). discriminate.
  - destruct (TransporterScreen.hasId jobId x) eqn:Hx.
    + specialize (Honly 0%nat x eq_refl Hx). discriminate.
    + simpl. f_equal. apply IH; [exact Hi|exact Hid|].
      intros k other Hk Ho. specialize (Honly (S k) other Hk Ho). congruence.
Qed.

Lemma acceptJob_removes_the_one_witness :
  TransporterScreen._availableJobs
    (fst (TransporterScreen._acceptJob 2
            (TransporterScreen._loadAvailableJobs TransporterScreen.initState))) =
  delete 1%nat
    (TransporterScreen._availableJobs
       (TransporterScreen._loadAvailableJobs TransporterScreen.initState)).
Proof.
  eapply (acceptJob_removes_the_one 2
            (TransporterScreen._loadAvailableJobs TransporterScreen.initState) 1).
  - reflexivity.
  - reflexivity.
  - intros [|[|k]] other; simpl.
    + intros [= <-]. discriminate.
    + reflexivity.
    + discriminate.
Defined.

(** X18. Toggling availability twice brings the screen back to the state
    it was in; a toggle leaves the list of jobs alone and announces the
    availability it has just set. *)
Theorem toggleAvailability_twice (st : TransporterScreen.State) :
  let st1 := fst (TransporterScreen._toggleAvailability st) in
  fst (TransporterScreen._toggleAvailability st1) = st /\
  TransporterScreen._availableJobs st1 = TransporterScreen._availableJobs st /\
  TransporterScreen._isAvailable st1 = negb (TransporterScreen._isAvailable st) /\
  snd (TransporterScreen._toggleAvailability st) =
    [if TransporterScreen._isAvailable st1
     then TransporterScreen.NowAvailable else TransporterScreen.NowUnavailable].
Proof. destruct st as [jobs loading []]; repeat split. Qed.

(** ** The admin job table, further *)

Lemma append_cons (x : ascii) (a b : string) :
  (String x a ++ b = String x (a ++ b))%string.
Proof. reflexivity. Qed.

Lemma String_append_assoc (a b c : string) :
  ((a ++ b) ++ c = a ++ (b ++ c))%string.
Proof.
  induction a as [|x a IH]; [reflexivity|].
  rewrite !append_cons, IH. reflexivity.
Qed.

Lemma prefix_append (p s : string) :
  String.prefix p s = true <-> exists r, s = (p ++ r)%string.
Proof.
  revert s. induction p as [|x p IH]; intros s.
  - split; [intros _; exists s; reflexivity|intros _; destruct s; reflexivity].
  - destruct s as [|y s]; cbn [String.prefix].
    + split; [discriminate|]. intros [r H]. rewrite append_cons in H. discriminate H.
    + destruct (Ascii.ascii_dec x y) as [->|Hne].
      * rewrite IH. split.
        -- intros [r ->]. exists r. reflexivity.
        -- intros [r H]. rewrite append_cons in H. injection H as ->. eauto.
      * split; [discriminate|]. intros [r H]. rewrite append_cons in H.
        injection H as -> _. contradiction.
Qed.

Lemma includes_append (s sub : string) :
  AdminJobs.includes s sub = true <->
  exists a b, s = (a ++ sub ++ b)%string.
Proof.
  induction s as [|x s IH]; cbn [AdminJobs.includes];
    rewrite orb_true_iff, prefix_append.
  - split.
    + intros [[r ->]|[=]]. exists "", r. reflexivity.
    + intros ([|y a] & b & H).
      * left. exists b. exact H.
      * rewrite append_cons in H. discriminate H.
  - rewrite IH. split.
    + intros [[r ->]|(a & b & ->)].
      * exists "", r. reflexivity.
      * exists (String x a), b. reflexivity.
    + intros ([|y a] & b & H).
      * left. exists b. exact H.
      * right. rewrite append_cons in H. injection H as -> ->. eauto.
Qed.

Lemma toLowerCase_append (a b : string) :
  AdminJobs.toLowerCase (a ++ b) =
  (AdminJobs.toLowerCase a ++ AdminJobs.toLowerCase b)%string.
Proof.
  induction a as [|x a IH]; [reflexivity|].
  rewrite append_cons. cbn [AdminJobs.toLowerCase]. rewrite append_cons, IH.
  reflexivity.
Qed.

Lemma lowerUnit_idempotent (c : ascii) :
  AdminJobs.lowerUnit (AdminJobs.lowerUnit c) = AdminJobs.lowerUnit c.
Proof. destruct c as [[] [] [] [] [] [] [] []]; reflexivity. Qed.

Lemma toLowerCase_idempotent (s : string) :
  AdminJobs.toLowerCase (AdminJobs.toLowerCase s) = AdminJobs.toLowerCase s.
Proof.
  induction s as [|x s IH]; simpl; [reflexivity|].
  now rewrite lowerUnit_idempotent, IH.
Qed.

Lemma includes_empty (s : string) : AdminJobs.includes s "" = true.
Proof. destruct s; reflexivity. Qed.

Lemma includes_trans (s t2 t1 : string) :
  AdminJobs.includes s t2 = true -> AdminJobs.includes t2 t1 = true ->
  AdminJobs.includes s t1 = true.
Proof.
  rewrite !includes_append. intros (a & b & ->) (c & d & ->).
  exists (a ++ c)%string, (d ++ b)%string.
  now rewrite !String_append_assoc.
Qed.

Lemma includes_toLowerCase (t2 t1 : string) :
  AdminJobs.includes t2 t1 = true ->
  AdminJobs.includes (AdminJobs.toLowerCase t2) (AdminJobs.toLowerCase t1) = true.
Proof.
  rewrite !includes_append. intros (a & b & ->).
  rewrite !toLowerCase_append. eauto.
Qed.

(** X19. With the status filter on [all] and an empty search box the
    table lists every job of the state, in order; and whatever the filter
    and the search term, the jobs listed are jobs of the state, in their
    order, none twice over. *)
Theorem filteredJobs_all (js : list AdminJobs.Job) (filter searchTerm : string) :
  AdminJobs.filteredJobs js "all" "" = js /\
  AdminJobs.filteredJobs js filter searchTerm `sublist_of` js.
Proof.
  unfold AdminJobs.filteredJobs. split.
  - assert (forall j, AdminJobs.matchesFilter "all" j
                      && AdminJobs.matchesSearch "" j = true) as Hall.
    { intros j. unfold AdminJobs.matchesSearch. cbn [AdminJobs.toLowerCase].
      rewrite includes_empty. reflexivity. }
    induction js as [|j js IH]; cbn [List.filter]; [reflexivity|].
    rewrite Hall, IH. reflexivity.
  - induction js as [|j js IH]; cbn [List.filter]; [constructor|].
    destruct (_ && _); now constructor.
Qed.

(** X20. With a status chosen in the filter, the table lists exactly the
    jobs of that status among those the search alone would list: the
    status filter and the search narrow the table independently. *)
Theorem filteredJobs_by_status (js : list AdminJobs.Job) (filter searchTerm : string) :
  filter <> "all" ->
  AdminJobs.filteredJobs js filter searchTerm =
    List.filter (fun j => String.eqb (AdminJobs.status j) filter)
      (AdminJobs.filteredJobs js "all" searchTerm) /\
  Forall (fun j => AdminJobs.status j = filter)
    (AdminJobs.filteredJobs js filter searchTerm).
Proof.
  intros Hf. apply String.eqb_neq in Hf. unfold AdminJobs.filteredJobs. split.
  - induction js as [|j js IH]; cbn [List.filter]; [reflexivity|].
    assert (AdminJobs.matchesFilter "all" j = true) as -> by reflexivity.
    assert (AdminJobs.matchesFilter filter j =
            String.eqb (AdminJobs.status j) filter) as ->.
    { unfold AdminJobs.matchesFilter. now rewrite Hf. }
    cbn [andb].
    destruct (AdminJobs.matchesSearch searchTerm j).
    + rewrite andb_true_r. cbn [List.filter].
      destruct (String.eqb (AdminJobs.status j) filter); now rewrite IH.
    + rewrite andb_false_r. exact IH.
  - apply List.Forall_forall. intros j Hj.
    apply List.filter_In in Hj as [_ Hj]. apply andb_true_iff in Hj as [Hj _].
    unfold AdminJobs.matchesFilter in Hj. rewrite Hf in Hj. simpl in Hj.
    now apply String.eqb_eq.
Qed.

Lemma filteredJobs_by_status_witness :
  Forall (fun j => AdminJobs.status j = "pending")
    (AdminJobs.filteredJobs AdminJobs.jobs "pending" "be").
Proof.
  apply (proj2 (filteredJobs_by_status AdminJobs.jobs "pending" "be"
                  ltac:(discriminate))).
Defined.

(** X21. The search does not look at the case of letters: a search term
    and its lower-case form list the same jobs, and so do any two terms
    that differ in case only. *)
Theorem filteredJobs_ignores_case
  (js : list AdminJobs.Job) (filter t1 t2 : string) :
  AdminJobs.filteredJobs js filter (AdminJobs.toLowerCase t1) =
    AdminJobs.filteredJobs js filter t1 /\
  (AdminJobs.toLowerCase t1 = AdminJobs.toLowerCase t2 ->
   AdminJobs.filteredJobs js filter t1 = AdminJobs.filteredJobs js filter t2).
Proof.
  unfold AdminJobs.filteredJobs, AdminJobs.matchesSearch. split.
  - rewrite toLowerCase_idempotent. reflexivity.
  - intros ->. reflexivity.
Qed.

Lemma filteredJobs_ignores_case_witness :
  AdminJobs.filteredJobs AdminJobs.jobs "all" "TOMATO" =
  AdminJobs.filteredJobs AdminJobs.jobs "all" "tomato".
Proof.
  apply (proj2 (filteredJobs_ignores_case AdminJobs.jobs "all" "TOMATO" "tomato")).
  reflexivity.
Defined.

(** X22. Making the search term longer never brings a job back: when the
    old term occurs inside the new one, every job listed for the new term
    was listed for the old one. *)
Theorem filteredJobs_narrows
  (js : list AdminJobs.Job) (filter old new : string) (j : AdminJobs.Job) :
  AdminJobs.includes new old = true ->
  In j (AdminJobs.filteredJobs js filter new) ->
  In j (AdminJobs.filteredJobs js filter old).
Proof.
  intros Hsub. unfold AdminJobs.filteredJobs. rewrite !List.filter_In.
  intros [Hin Hm]. split; [exact Hin|].
  apply andb_true_iff in Hm as [Hf Hs]. rewrite Hf. simpl.
  unfold AdminJobs.matchesSearch in *. apply includes_toLowerCase in Hsub.
  apply orb_true_iff in Hs as [Hs|Hs]; apply orb_true_iff; [left|right];
    eapply includes_trans; eauto.
Qed.

Lemma filteredJobs_narrows_witness :
  In (nth 0 AdminJobs.jobs (AdminJobs.Build 0 "" "" 0 "" "" None "" "" zero 0))
     (AdminJobs.filteredJobs AdminJobs.jobs "all" "mo").
Proof.
  apply (filteredJobs_narrows AdminJobs.jobs "all" "mo" "moyo").
  - reflexivity.
  - vm_compute. left. reflexivity.
Defined.

Lemma countStatus_cons (s : string) (j : AdminJobs.Job) (js : list AdminJobs.Job) :
  AdminJobs.countStatus s (j :: js) =
  ((if String.eqb (AdminJobs.status j) s then 1 else 0)
   + AdminJobs.countStatus s js)%nat.
Proof.
  unfold AdminJobs.countStatus. simpl.
  destruct (String.eqb (AdminJobs.status j) s); reflexivity.
Qed.

(** X23. The three counters of the "Job Distribution" card never add up
    to more than the number of jobs, and they add up to exactly that
    number when, and only when, every job is [completed], [in-progress]
    or [pending]: a job with any other status is counted nowhere. *)
Theorem jobDistribution_total (js : list AdminJobs.Job) :
  let shown := (AdminJobs.countStatus "completed" js
                + AdminJobs.countStatus "in-progress" js
                + AdminJobs.countStatus "pending" js)%nat in
  (shown <= length js)%nat /\
  (shown = length js <->
   Forall (fun j => In (AdminJobs.status j) ["completed"; "in-progress"; "pending"]) js).
Proof.
  cbv zeta. induction js as [|j js [IHle IHeq]].
  - unfold AdminJobs.countStatus. cbn [List.filter length Nat.add].
    split; [lia|]. split; [constructor|reflexivity].
  - rewrite !countStatus_cons. cbn [length].
    destruct (String.eqb_spec (AdminJobs.status j) "completed") as [E1|N1];
    destruct (String.eqb_spec (AdminJobs.status j) "in-progress") as [E2|N2];
    destruct (String.eqb_spec (AdminJobs.status j) "pending") as [E3|N3];
      try (rewrite E1 in E2; discriminate E2);
      try (rewrite E1 in E3; discriminate E3);
      try (rewrite E2 in E3; discriminate E3).
    + split; [lia|]. split.
      * intros Hs. apply List.Forall_cons; [rewrite E1; simpl; auto 6|apply IHeq; lia].
      * intros Hf. apply List.Forall_cons_iff in Hf as [_ Hf]. apply IHeq in Hf. lia.
    + split; [lia|]. split.
      * intros Hs. apply List.Forall_cons; [rewrite E2; simpl; auto 6|apply IHeq; lia].
      * intros Hf. apply List.Forall_cons_iff in Hf as [_ Hf]. apply IHeq in Hf. lia.
    + split; [lia|]. split.
      * intros Hs. apply List.Forall_cons; [rewrite E3; simpl; auto 6|apply IHeq; lia].
      * intros Hf. apply List.Forall_cons_iff in Hf as [_ Hf]. apply IHeq in Hf. lia.
    + split; [lia|]. split.
      * intros Hs. lia.
      * intros Hf. apply List.Forall_cons_iff in Hf as [Hj _].
        simpl in Hj. intuition congruence.
Qed.

(** ** The order of things on the farmer screen *)

Lemma validate_without_crop st :
  FarmerScreen._selectedCrop st = None -> FarmerScreen.validate st = false.
Proof. intros H. unfold FarmerScreen.validate. rewrite H. reflexivity. Qed.

Lemma step_without_crop st ev :
  FarmerScreen._selectedCrop st = None ->
  (forall item, ev <> FarmerScreen.CropChanged item) ->
  FarmerScreen._selectedCrop (fst (FarmerScreen.step st ev)) = None /\
  FarmerScreen.submitted (snd (FarmerScreen.step st ev)) = [].
Proof.
  intros Hc Hev. destruct ev as [item|text|text|text|net|]; cbn [FarmerScreen.step].
  - now contradiction (Hev item).
  - auto.
  - auto.
  - auto.
  - unfold FarmerScreen._submitRequest.
    rewrite (validate_without_crop st Hc). auto.
  - destruct (FarmerScreen._currentJob st); auto.
Qed.

(** X24. No request leaves the screen before a crop has been picked: from
    a state with no crop selected, a run of events without a pick in the
    crop dropdown sends nothing, whatever is typed and however often "Find
    Transport" is pressed. *)
Theorem nothing_sent_without_crop
  (st : FarmerScreen.State) (evs : list FarmerScreen.event) :
  FarmerScreen._selectedCrop st = None ->
  (forall item, ~ In (FarmerScreen.CropChanged item) evs) ->
  FarmerScreen.submitted (snd (FarmerScreen.run st evs)) = [].
Proof.
  revert st. induction evs as [|ev evs IH]; intros st Hc Hev;
    cbn [FarmerScreen.run]; [reflexivity|].
  destruct (step_without_crop st ev Hc) as [Hc1 Hout1].
  { intros item ->. apply (Hev item). now left. }
  destruct (FarmerScreen.step st ev) as [st1 out1]. cbn [fst snd] in *.
  specialize (IH st1 Hc1).
  destruct (FarmerScreen.run st1 evs) as [st2 out2]. cbn [snd] in *.
  rewrite submitted_app, Hout1, IH; [reflexivity|].
  intros item Hin. apply (Hev item). now right.
Qed.

Lemma nothing_sent_without_crop_witness :
  FarmerScreen.submitted
    (snd (FarmerScreen.run FarmerScreen.initState
            [ FarmerScreen.QuantityEdited "500";
              FarmerScreen.LocationEdited "Mashonaland East";
              FarmerScreen.MarketEdited "Mbare Musika";
              FarmerScreen.FindTransportPressed Samples.matching ])) = [].
Proof.
  apply (nothing_sent_without_crop FarmerScreen.initState).
  - reflexivity.
  - intros item [H|[H|[H|[H|[]]]]]; discriminate H.
Defined.

(** X25. [TransporterProfile.fromJson] returns a profile exactly when
    [vehicle_type], [current_location] and [contact_info] are strings,
    [capacity_kg] is a number and [availability] is a boolean; on any
    other map it throws a [TypeError] or a [NoSuchMethodError], so an
    availability sent as the text "true" is refused. *)
Theorem TransporterProfile_fromJson_shape (m : Map) :
  ((exists p, TransporterProfile.fromJson m = Ok p) <->
   Wire.transporterOk (DMap m) = true) /\
  (forall e, TransporterProfile.fromJson m = Throw e ->
     e = TypeError \/ e = NoSuchMethodError) /\
  (Wire.isString (index m "vehicle_type") = true ->
   Wire.isNum (index m "capacity_kg") = true ->
   Wire.isString (index m "current_location") = true ->
   Wire.isBool (index m "availability") = false ->
   TransporterProfile.fromJson m = Throw TypeError).
Proof.
  split; [|split].
  - rewrite TransporterProfile_accepts. split.
    + intros [p H]. eauto.
    + intros (m' & p & [= <-] & H). eauto.
  - apply TransporterProfile_fromJson_throws.
  - intros H1 H2 H3 H4. unfold TransporterProfile.fromJson.
    apply isString_cast in H1 as [v ->], H3 as [l ->].
    apply isNum_cast in H2 as [c ->]. cbn [bind].
    destruct (index m "availability"); simpl in *; congruence.
Qed.

Lemma TransporterProfile_fromJson_shape_witness :
  TransporterProfile.fromJson
    [ ("vehicle_type", DString "van"); ("capacity_kg", DInt 800);
      ("current_location", DString "Mutare"); ("availability", DString "true");
      ("contact_info", DString "+263776789012") ] =
  Throw TypeError.
Proof.
  apply (proj2 (proj2 (TransporterProfile_fromJson_shape
           [ ("vehicle_type", DString "van"); ("capacity_kg", DInt 800);
             ("current_location", DString "Mutare");
             ("availability", DString "true");
             ("contact_info", DString "+263776789012") ])));
    reflexivity.
Defined.
